(** * Contract billing (contract.py): a shallow embedding and its properties

    The development follows [contract.py]: the abstract [Contract] class and
    its three subclasses [TermContract], [MTMContract] and [PrepaidContract],
    each driven by [new_month], [bill_call] and [cancel_contract] against the
    bill of the current month.  It then covers [CallHistory]
    (callhistory.py) and the duration and customer filters (filter.py).

    Conventions.
    - Python integers (minutes, seconds, years) are [Z].
    - The amounts a bill holds and the fees and rates written into it are
      exact rationals [Q]; the literals [50.00], [0.05], [0.025], ... stand
      for the decimal values the source writes.
    - Arithmetic the source does itself on numbers that may be floats is
      embedded with an explicit model of binary64 rounding:
      [ceil(call.duration / 60.0)] (module [Float]) and the prepaid balance,
      an [int] that becomes a [float] with the first call billed (module
      [Py]).
    - A Python exception is a [Raise] result; a method maps the object it is
      called on to its outcome and the object afterwards.
    - The [Bill] a contract refers to is kept inside the contract's state:
      the driver hands a bill over with [new_month] and reads it back through
      the contract ([bill_of]). *)

From Stdlib Require Import ZArith QArith Qround Qabs List Lia String Bool.
From Stdlib Require Import Ascii.
From Stdlib Require Import Permutation.
Import ListNotations.
Open Scope Z_scope.

(** ** Exceptions *)

Inductive exn : Type :=
| AttributeError       (* attribute access on None *)
| OverflowError        (* int too large to convert to float *)
| ValueError           (* datetime.date out of range *)
| ZeroDivisionError
| NotImplementedError.

Inductive result (A : Type) : Type :=
| Ok (a : A)
| Raise (e : exn).
Arguments Ok {A} a.
Arguments Raise {A} e.

Definition bind {A B : Type} (r : result A) (k : A -> result B) : result B :=
  match r with
  | Ok a => k a
  | Raise e => Raise e
  end.

Notation "x <- r ;; k" := (bind r (fun x => k))
  (at level 61, r at next level, right associativity).

(** [o.attr] where [o] may be [None]. *)
Definition deref {A : Type} (o : option A) : result A :=
  match o with
  | Some a => Ok a
  | None => Raise AttributeError
  end.

(** ** binary64 values

    A finite double is a dyadic rational; it is kept as the [Q] it denotes.
    [round] is round-to-nearest, ties-to-even, onto 53 significant bits with
    the exponent clamped at the subnormal range.  Only finite values occur:
    the source converts an [int] (which raises on overflow) and divides it
    by [60.0]. *)

Module Float.

(** Nearest integer to [n / d] ([0 < d]), ties to the even one. *)
Definition rne_div (n d : Z) : Z :=
  let q := n / d in
  let r := n mod d in
  if 2 * r <? d then q
  else if d <? 2 * r then q + 1
  else if Z.even q then q else q + 1.

(** [floor (log2 (n / d))] for [0 < n], [0 < d]. *)
Definition ilog2_frac (n d : Z) : Z :=
  let k := Z.log2 n - Z.log2 d in
  if n * 2 ^ Z.max 0 (- k) <? d * 2 ^ Z.max 0 k then k - 1 else k.

(** The rational [m * 2^e]. *)
Definition dyadic (m e : Z) : Q :=
  if 0 <=? e then inject_Z (m * 2 ^ e)
  else Qmake m (Z.to_pos (2 ^ (- e))).

Definition round (x : Q) : Q :=
  let n := Qnum x in
  let d := Z.pos (Qden x) in
  if n =? 0 then 0%Q
  else
    let e := Z.max (ilog2_frac (Z.abs n) d - 52) (-1074) in
    let m := rne_div (n * 2 ^ Z.max 0 (- e)) (d * 2 ^ Z.max 0 e) in
    dyadic m e.

(** [float(n)] for an [int] [n], as done implicitly by [n / 60.0]. *)
Definition of_int (n : Z) : result Q :=
  let r := round (inject_Z n) in
  if Qle_bool (inject_Z (2 ^ 1024)) (Qabs r) then Raise OverflowError
  else Ok r.

(** [x / y] on doubles. *)
Definition div (x y : Q) : result Q :=
  if Qeq_bool y 0 then Raise ZeroDivisionError
  else Ok (round (x / y)).

(** [math.ceil(x)]: an exact [int]. *)
Definition ceil (x : Q) : Z := Qceiling x.

End Float.

(** ** Python numbers

    The prepaid balance starts as an [int] and becomes a [float] with the
    first call billed; its arithmetic is Python's.  A finite double is kept
    as the rational it denotes, in lowest terms; the two zeros are one
    value, which no comparison or sum of the source tells apart. *)

Module Py.

Inductive float : Type :=
| Finite (q : Q)
| Inf (negative : bool)
| NaN.

Inductive number : Type :=
| Int (z : Z)
| Flt (x : float).

(** The double nearest to a rational, ties to even; infinite beyond the
    range of doubles.  It is the result of an operation whose exact value is
    [q], and the value of a decimal literal. *)
Definition nearest (q : Q) : float :=
  let r := Float.round q in
  if Qle_bool (inject_Z (2 ^ 1024)) (Qabs r) then Inf (Qnum q <? 0)
  else Finite (Qred r).

(** The conversion an arithmetic operation applies to an [int] operand
    when the other one is a [float]. *)
Definition float_of_int (z : Z) : result float :=
  x <- Float.of_int z ;; Ok (Finite (Qred x)).

Definition fneg (x : float) : float :=
  match x with
  | Finite q => Finite (- q)
  | Inf negative => Inf (negb negative)
  | NaN => NaN
  end.

Definition fadd (x y : float) : float :=
  match x, y with
  | NaN, _ | _, NaN => NaN
  | Finite a, Finite b => nearest (a + b)
  | Inf s, Inf t => if Bool.eqb s t then Inf s else NaN
  | Inf s, Finite _ => Inf s
  | Finite _, Inf t => Inf t
  end.

Definition fsub (x y : float) : float := fadd x (fneg y).

Definition fmul (x y : float) : float :=
  match x, y with
  | NaN, _ | _, NaN => NaN
  | Finite a, Finite b => nearest (a * b)
  | Inf s, Inf t => Inf (xorb s t)
  | Inf s, Finite b =>
      if Qeq_bool b 0 then NaN else Inf (xorb s (Qnum b <? 0))
  | Finite a, Inf t =>
      if Qeq_bool a 0 then NaN else Inf (xorb (Qnum a <? 0) t)
  end.

(** [a + b], [a - b], [a * b] *)
Definition add (a b : number) : result number :=
  match a, b with
  | Int x, Int y => Ok (Int (x + y))
  | Int x, Flt y => fx <- float_of_int x ;; Ok (Flt (fadd fx y))
  | Flt x, Int y => fy <- float_of_int y ;; Ok (Flt (fadd x fy))
  | Flt x, Flt y => Ok (Flt (fadd x y))
  end.

Definition sub (a b : number) : result number :=
  match a, b with
  | Int x, Int y => Ok (Int (x - y))
  | Int x, Flt y => fx <- float_of_int x ;; Ok (Flt (fsub fx y))
  | Flt x, Int y => fy <- float_of_int y ;; Ok (Flt (fsub x fy))
  | Flt x, Flt y => Ok (Flt (fsub x y))
  end.

Definition mul (a b : number) : result number :=
  match a, b with
  | Int x, Int y => Ok (Int (x * y))
  | Int x, Flt y => fx <- float_of_int x ;; Ok (Flt (fmul fx y))
  | Flt x, Int y => fy <- float_of_int y ;; Ok (Flt (fmul x fy))
  | Flt x, Flt y => Ok (Flt (fmul x y))
  end.

(** The value a comparison sees: an [int] is compared with a [float] by its
    exact value, without conversion. *)
Definition real (a : number) : float :=
  match a with
  | Int z => Finite (inject_Z z)
  | Flt x => x
  end.

Definition fle (x y : float) : bool :=
  match x, y with
  | NaN, _ | _, NaN => false
  | Inf true, _ => true
  | _, Inf false => true
  | Inf false, _ => false
  | _, Inf true => false
  | Finite a, Finite b => Qle_bool a b
  end.

(** [a <= b], [a < b], [a > b] *)
Definition le (a b : number) : bool := fle (real a) (real b).

Definition lt (a b : number) : bool :=
  fle (real a) (real b) && negb (fle (real b) (real a)).

Definition gt (a b : number) : bool := lt b a.

(** A float literal, written in decimal. *)
Definition literal (q : Q) : number := Flt (nearest q).

Definition is_finite (a : number) : bool :=
  match a with
  | Int _ | Flt (Finite _) => true
  | Flt (Inf _) | Flt NaN => false
  end.

End Py.

(** ** Calls (call.py)

    The billing code reads only [duration]. *)

Record Call : Type := mkCall {
  src_number : string;
  dst_number : string;
  duration : Z           (* seconds; representation invariant: duration >= 0 *)
}.

(** [ceil(call.duration / 60.0)], the expression every [bill_call] starts
    with. *)
Definition call_minutes (call : Call) : result Z :=
  x <- Float.of_int (duration call) ;;
  q <- Float.div x (inject_Z 60) ;;
  Ok (Float.ceil q).

(** ** Methods: state and exceptions

    A method of a class with instance state [S] maps the object before the
    call to the outcome and the object after it; an exception keeps the
    assignments made before it was raised. *)

Definition M (S A : Type) : Type := S -> result A * S.

Definition ret {S A : Type} (a : A) : M S A := fun s => (Ok a, s).

Definition raise {S A : Type} (e : exn) : M S A := fun s => (Raise e, s).

Definition mbind {S A B : Type} (m : M S A) (k : A -> M S B) : M S B :=
  fun s =>
    match m s with
    | (Ok a, s') => k a s'
    | (Raise e, s') => (Raise e, s')
    end.

Definition lift {S A : Type} (r : result A) : M S A := fun s => (r, s).

Definition get {S : Type} : M S S := fun s => (Ok s, s).

Definition modify {S : Type} (f : S -> S) : M S unit := fun s => (Ok tt, f s).

Notation "x <~ m ;; k" := (mbind m (fun x => k))
  (at level 61, m at next level, right associativity).
Notation "m >> k" := (mbind m (fun _ => k))
  (at level 61, right associativity).

(** [for x in xs: body(x)] *)
Fixpoint for_each {S A : Type} (body : A -> M S unit) (xs : list A) : M S unit :=
  match xs with
  | [] => ret tt
  | x :: xs' => mbind (body x) (fun _ => for_each body xs')
  end.

(** ** datetime.date *)

Module datetime.

Record date : Type := mkDate { year : Z; month : Z; day : Z }.

Definition is_leap (y : Z) : bool :=
  ((y mod 4 =? 0) && negb (y mod 100 =? 0)) || (y mod 400 =? 0).

Definition days_in_month (y m : Z) : Z :=
  if m =? 2 then (if is_leap y then 29 else 28)
  else if (m =? 4) || (m =? 6) || (m =? 9) || (m =? 11) then 30
  else 31.

(** The constructor takes its arguments as C [int]s. *)
Definition fits_c_int (z : Z) : bool := (- 2 ^ 31 <=? z) && (z <? 2 ^ 31).

(** [datetime.date(y, m, d)]: an argument that is no C [int] raises
    [OverflowError]; then the constructor checks the ranges. *)
Definition new (y m d : Z) : result date :=
  if negb (fits_c_int y && fits_c_int m && fits_c_int d)
  then Raise OverflowError
  else if (1 <=? y) && (y <=? 9999) && (1 <=? m) && (m <=? 12)
          && (1 <=? d) && (d <=? days_in_month y m)
  then Ok (mkDate y m d)
  else Raise ValueError.

(** [a <= b] on dates: year, then month, then day. *)
Definition le (a b : date) : bool :=
  (year a <? year b)
  || ((year a =? year b)
      && ((month a <? month b)
          || ((month a =? month b) && (day a <=? day b)))).

End datetime.

(** ** Bill *)

(** Modelled from the spec: class [Bill] of bill.py, which contract.py imports
    and which is not among the source files.  The spec (sections 3 and 4.1)
    gives it a fixed-cost total, a per-minute rate, a free-minutes-used counter
    and a billed-minutes counter, together with a plan tag kept for display;
    contract.py names the free-minutes-used counter [free_min]. *)
Record Bill : Type := mkBill {
  billed_min : Z;
  free_min : Z;
  min_rate : Q;
  fixed_cost : Q;
  plan_tag : string
}.

(** Modelled from the spec: [Bill()], a bill "created fresh" for a month;
    every counter and total starts at zero. *)
Definition Bill_init : Bill := mkBill 0 0 0 0 EmptyString.

(** Modelled from the spec: [Bill.set_rates], "records the per-minute overage
    rate and an identifying plan tag". *)
Definition set_rates (b : Bill) (tag : string) (rate : Q) : Bill :=
  mkBill (billed_min b) (free_min b) rate (fixed_cost b) tag.

(** Modelled from the spec: [Bill.add_fixed_cost], "adds amount to the
    fixed-cost total". *)
Definition add_fixed_cost (b : Bill) (amount : Q) : Bill :=
  mkBill (billed_min b) (free_min b) (min_rate b) (fixed_cost b + amount)
         (plan_tag b).

(** Modelled from the spec: [Bill.add_billed_minutes], "increment the
    respective counter by n". *)
Definition add_billed_minutes (b : Bill) (n : Z) : Bill :=
  mkBill (billed_min b + n) (free_min b) (min_rate b) (fixed_cost b)
         (plan_tag b).

(** Modelled from the spec: [Bill.add_free_minutes], "increment the
    respective counter by n". *)
Definition add_free_minutes (b : Bill) (n : Z) : Bill :=
  mkBill (billed_min b) (free_min b + n) (min_rate b) (fixed_cost b)
         (plan_tag b).

(** Modelled from the spec: [Bill.get_cost], "fixed-cost total +
    billed-minutes x per-minute rate". *)
Definition get_cost (b : Bill) : Q :=
  fixed_cost b + inject_Z (billed_min b) * min_rate b.

(** [bill.free_min = n], the direct attribute assignment contract.py makes. *)
Definition set_free_min (b : Bill) (n : Z) : Bill :=
  mkBill (billed_min b) n (min_rate b) (fixed_cost b) (plan_tag b).

(** Modelled from the spec: the amount a Python number stands for when it is
    handed to [Bill.add_fixed_cost], whose totals the spec gives as currency
    amounts: the value of an [int] or of a finite float.  The spec has no
    reading for an infinite or undefined float; it is entered as 0, and what
    is proved below about the bill of a prepaid contract is proved for finite
    balances. *)
Definition amount_of (a : Py.number) : Q :=
  match a with
  | Py.Int z => inject_Z z
  | Py.Flt (Py.Finite q) => q
  | Py.Flt (Py.Inf _) | Py.Flt Py.NaN => 0
  end.

(** ** Constants of contract.py *)

Definition MTM_MONTHLY_FEE : Q := 50.
Definition TERM_MONTHLY_FEE : Q := 20.
Definition TERM_DEPOSIT : Q := 300.
Definition TERM_MINS : Z := 100.
Definition MTM_MINS_COST : Q := 5 # 100.
Definition TERM_MINS_COST : Q := 1 # 10.
Definition PREPAID_MINS_COST : Q := 25 # 1000.

(** ** class Contract *)

Module Contract.

Record t : Type := mk {
  start : option datetime.date;   (* None once cancelled *)
  bill : option Bill              (* None until the first new_month *)
}.

(** [Contract.__init__] *)
Definition __init__ (start : datetime.date) : t := mk (Some start) None.

Definition set_start (v : option datetime.date) (self : t) : t :=
  mk v (bill self).

Definition set_bill (v : option Bill) (self : t) : t :=
  mk (start self) v.

(** [self.bill], for an attribute access or a method call on it. *)
Definition the_bill : M t Bill :=
  self <~ get ;; lift (deref (bill self)).

(** A mutation of the object [self.bill] refers to. *)
Definition update_bill (f : Bill -> Bill) : M t unit :=
  b <~ the_bill ;; modify (set_bill (Some (f b))).

Definition new_month (month year : Z) (bill : Bill) : M t unit :=
  raise NotImplementedError.

(** [self.bill.add_billed_minutes] is looked up before its argument is
    evaluated. *)
Definition bill_call (call : Call) : M t unit :=
  _b <~ the_bill ;;
  minutes <~ lift (call_minutes call) ;;
  update_bill (fun b => add_billed_minutes b minutes).

(** The start date is cleared before the bill is asked for its cost. *)
Definition cancel_contract : M t Q :=
  modify (set_start None) >>
  b <~ the_bill ;;
  ret (get_cost b).

End Contract.

(** A subclass keeps the attributes of [Contract] and inherits its methods. *)
Class Inherits (S : Type) : Type := {
  base : S -> Contract.t;
  set_base : Contract.t -> S -> S
}.

Definition upcast {S : Type} `{Inherits S} {A : Type}
  (m : M Contract.t A) : M S A :=
  fun self => let (r, b) := m (base self) in (r, set_base b self).

(** ** class TermContract *)

Module TermContract.

Record t : Type := mk {
  super : Contract.t;
  end_ : datetime.date;
  current : datetime.date
}.

#[global] Instance inherits : Inherits t := {
  base := super;
  set_base b self := mk b (end_ self) (current self)
}.

Definition __init__ (start end_ : datetime.date) : t :=
  mk (Contract.__init__ start) end_ start.

Definition set_current (d : datetime.date) (self : t) : t :=
  mk (super self) (end_ self) d.

(** [bill] and [self.bill] name one object from the first statement on, so
    the calls on [bill] are updates of the contract's bill. *)
Definition new_month (month year : Z) (bill : Bill) : M t unit :=
  upcast (modify (Contract.set_bill (Some bill))) >>
  upcast (Contract.update_bill (fun b => set_free_min b 0)) >>
  self <~ get ;;
  start <~ lift (deref (Contract.start (super self))) ;;
  (if (datetime.month start =? month) && (datetime.year start =? year)
   then upcast (Contract.update_bill (fun b => add_fixed_cost b TERM_DEPOSIT))
   else ret tt) >>
  upcast (Contract.update_bill (fun b => set_rates b "TERM" TERM_MINS_COST)) >>
  upcast (Contract.update_bill (fun b => add_fixed_cost b TERM_MONTHLY_FEE)) >>
  d <~ lift (datetime.new year month 1) ;;
  modify (set_current d).

Definition bill_call (call : Call) : M t unit :=
  call_time <~ lift (call_minutes call) ;;
  b0 <~ upcast Contract.the_bill ;;
  let excess := call_time - (TERM_MINS - free_min b0) in
  if free_min b0 + call_time <? TERM_MINS then
    upcast (Contract.update_bill
              (fun b => set_free_min b (free_min b + call_time)))
  else if negb (free_min b0 - TERM_MINS =? 0) then
    upcast (Contract.update_bill
              (fun b => set_free_min b (free_min b + (call_time - excess)))) >>
    upcast (Contract.update_bill (fun b => add_free_minutes b (free_min b))) >>
    upcast (Contract.update_bill (fun b => add_billed_minutes b excess))
  else
    upcast (Contract.update_bill (fun b => add_billed_minutes b excess)).

Definition cancel_contract : M t Q :=
  self <~ get ;;
  if datetime.le (end_ self) (current self) then ret 0%Q
  else ret (TERM_DEPOSIT - TERM_MONTHLY_FEE)%Q.

End TermContract.

(** ** class MTMContract *)

Module MTMContract.

Record t : Type := mk { super : Contract.t }.

#[global] Instance inherits : Inherits t := {
  base := super;
  set_base b _ := mk b
}.

Definition __init__ (start : datetime.date) : t := mk (Contract.__init__ start).

Definition new_month (month year : Z) (bill : Bill) : M t unit :=
  upcast (modify (Contract.set_bill (Some bill))) >>
  upcast (Contract.update_bill (fun b => set_rates b "MTM" MTM_MINS_COST)) >>
  upcast (Contract.update_bill (fun b => add_fixed_cost b MTM_MONTHLY_FEE)).

(** Inherited from [Contract]. *)
Definition bill_call (call : Call) : M t unit :=
  upcast (Contract.bill_call call).

(** Inherited from [Contract]. *)
Definition cancel_contract : M t Q :=
  upcast Contract.cancel_contract.

End MTMContract.

(** ** class PrepaidContract *)

Module PrepaidContract.

Record t : Type := mk { super : Contract.t; balance : Py.number }.

#[global] Instance inherits : Inherits t := {
  base := super;
  set_base b self := mk b (balance self)
}.

Definition __init__ (start : datetime.date) (balance : Z) : t :=
  mk (Contract.__init__ start) (Py.Int (- balance)).

Definition set_balance (v : Py.number) (self : t) : t := mk (super self) v.

Definition new_month (month year : Z) (bill : Bill) : M t unit :=
  upcast (modify (Contract.set_bill (Some bill))) >>
  self <~ get ;;
  upcast (Contract.update_bill
            (fun b => add_fixed_cost b (amount_of (balance self)))) >>
  (if Py.gt (balance self) (Py.Int (-10))
   then balance' <~ lift (Py.sub (balance self) (Py.Int 25)) ;;
        modify (set_balance balance') >>
        upcast (Contract.update_bill (fun b => add_fixed_cost b 25))
   else ret tt) >>
  upcast (Contract.update_bill
            (fun b => set_rates b "PREPAID" PREPAID_MINS_COST)).

(** The balance is charged first, in Python's arithmetic; the bill is
    reached, and the minutes are computed again, in the second statement. *)
Definition bill_call (call : Call) : M t unit :=
  self <~ get ;;
  minutes <~ lift (call_minutes call) ;;
  charge <~ lift (Py.mul (Py.Int minutes) (Py.literal PREPAID_MINS_COST)) ;;
  balance' <~ lift (Py.add (balance self) charge) ;;
  modify (set_balance balance') >>
  _b <~ upcast Contract.the_bill ;;
  minutes' <~ lift (call_minutes call) ;;
  upcast (Contract.update_bill (fun b => add_billed_minutes b minutes')).

Definition cancel_contract : M t Py.number :=
  self <~ get ;;
  if Py.le (balance self) (Py.Int 0) then ret (Py.literal 0)
  else ret (balance self).

End PrepaidContract.

(** ** The interface the three variants implement *)

Class ContractClass (S : Type) `{Inherits S} : Type := {
  amount_owed : Type;       (* what [cancel_contract] returns *)
  new_month : Z -> Z -> Bill -> M S unit;
  bill_call : Call -> M S unit;
  cancel_contract : M S amount_owed
}.

#[global] Instance Term_contract : ContractClass TermContract.t := {
  amount_owed := Q;
  new_month := TermContract.new_month;
  bill_call := TermContract.bill_call;
  cancel_contract := TermContract.cancel_contract
}.

#[global] Instance MTM_contract : ContractClass MTMContract.t := {
  amount_owed := Q;
  new_month := MTMContract.new_month;
  bill_call := MTMContract.bill_call;
  cancel_contract := MTMContract.cancel_contract
}.

#[global] Instance Prepaid_contract : ContractClass PrepaidContract.t := {
  amount_owed := Py.number;
  new_month := PrepaidContract.new_month;
  bill_call := PrepaidContract.bill_call;
  cancel_contract := PrepaidContract.cancel_contract
}.

(** Attributes every contract has. *)
Definition start_of {S : Type} `{Inherits S} (self : S) : option datetime.date :=
  Contract.start (base self).

Definition bill_of {S : Type} `{Inherits S} (self : S) : option Bill :=
  Contract.bill (base self).

(** The monthly driver: the calls of one month, billed in the order they were
    recorded. *)
Definition bill_calls {S : Type} `{ContractClass S} (calls : list Call)
  : M S unit :=
  for_each bill_call calls.


(** [self.balance + minutes * PREPAID_MINS_COST], the value
    [PrepaidContract.bill_call] assigns to the balance. *)
Definition prepaid_charge (balance : Py.number) (minutes : Z)
  : result Py.number :=
  charge <- Py.mul (Py.Int minutes) (Py.literal PREPAID_MINS_COST) ;;
  Py.add balance charge.

(** A balance [bill_call] can charge whatever the call: a float, or an int
    of at most 53 bits. *)
Definition chargeable (balance : Py.number) : Prop :=
  match balance with
  | Py.Int z => Z.abs z <= 2 ^ 53
  | Py.Flt _ => True
  end.

(** The integer ceiling of [d / 60]: the least [m] with [d <= 60 * m]
    (lemma [ceil60_spec]). *)
Definition ceil60 (d : Z) : Z := (d + 59) / 60.

(** The largest duration, in seconds, below which every integer is a double. *)
Definition MAX_EXACT_SECONDS : Z := 2 ^ 53.

Definition exact_duration (call : Call) : Prop :=
  0 <= duration call <= MAX_EXACT_SECONDS.

(** The object [self] with its bill replaced. *)
Definition with_bill {S : Type} `{Inherits S} (ob : option Bill) (self : S) : S :=
  set_base (Contract.set_bill ob (base self)) self.

(** Minutes of a list of calls when each call is rounded up on its own. *)
Definition minutes_per_call (calls : list Call) : Z :=
  fold_right Z.add 0 (map (fun c => ceil60 (duration c)) calls).

(** Seconds of a list of calls, added up before any rounding. *)
Definition total_seconds (calls : list Call) : Z :=
  fold_right Z.add 0 (map duration calls).

(** Sample dates and calls for the concrete runs below. *)
Definition jan15_2025 : datetime.date := datetime.mkDate 2025 1 15.
Definition jan15_2027 : datetime.date := datetime.mkDate 2027 1 15.
Definition call_of (seconds : Z) : Call :=
  mkCall "416-555-0100" "647-555-0199" seconds.

(** [2^53 + 29] seconds: an odd integer above [2^53], which is not a double;
    [float(LOSSY_SECONDS)] is [LOSSY_SECONDS - 1], a multiple of 60. *)
Definition LOSSY_SECONDS : Z := 9007199254741021.

(** ** Python dictionaries

    A [dict] keeps its keys in insertion order; an association list with one
    entry per key has the same lookups and the same iteration order. *)

Module dict.

Section Dict.

Context {K V : Type} (eqb : K -> K -> bool).

(** [d.get(k)] *)
Fixpoint lookup (d : list (K * V)) (k : K) : option V :=
  match d with
  | [] => None
  | (k', v) :: d' => if eqb k' k then Some v else lookup d' k
  end.

(** [k in d] *)
Definition contains (d : list (K * V)) (k : K) : bool :=
  match lookup d k with
  | Some _ => true
  | None => false
  end.

(** [d[k] = v]: a key already there keeps its place, a new key goes last. *)
Fixpoint setitem (d : list (K * V)) (k : K) (v : V) : list (K * V) :=
  match d with
  | [] => [(k, v)]
  | (k', v') :: d' =>
      if eqb k' k then (k', v) :: d' else (k', v') :: setitem d' k v
  end.

(** A mutation, in place, of the value [d[k]] refers to. *)
Fixpoint update (d : list (K * V)) (k : K) (f : V -> V) : list (K * V) :=
  match d with
  | [] => []
  | (k', v') :: d' =>
      if eqb k' k then (k', f v') :: d' else (k', v') :: update d' k f
  end.

Definition keys (d : list (K * V)) : list K := map fst d.

Definition values (d : list (K * V)) : list V := map snd d.

End Dict.

End dict.

(** ** Calls with their time (call.py)

    [Call] above has the attributes billing reads.  Call history reads
    [call.time] as well, of which it uses the month and the year. *)

Record TimedCall : Type := mkTimedCall {
  the_call : Call;
  time : datetime.date
}.

(** [Call.get_bill_date] *)
Definition get_bill_date (c : TimedCall) : Z * Z :=
  (datetime.month (time c), datetime.year (time c)).

(** Equality of [(month, year)] keys. *)
Definition key_eqb (a b : Z * Z) : bool :=
  (fst a =? fst b) && (snd a =? snd b).

(** ** class CallHistory (callhistory.py) *)

Module CallHistory.

Record t : Type := mk {
  outgoing_calls : list ((Z * Z) * list TimedCall);
  incoming_calls : list ((Z * Z) * list TimedCall)
}.

Definition __init__ : t := mk [] [].

Definition register_outgoing_call (self : t) (call : TimedCall) : t :=
  let find := (datetime.month (time call), datetime.year (time call)) in
  if dict.contains key_eqb (outgoing_calls self) find
  then mk (dict.update key_eqb (outgoing_calls self) find
             (fun calls => calls ++ [call]))
          (incoming_calls self)
  else mk (dict.setitem key_eqb (outgoing_calls self) find [call])
          (incoming_calls self).

Definition register_incoming_call (self : t) (call : TimedCall) : t :=
  let find := (datetime.month (time call), datetime.year (time call)) in
  if dict.contains key_eqb (incoming_calls self) find
  then mk (outgoing_calls self)
          (dict.update key_eqb (incoming_calls self) find
             (fun calls => calls ++ [call]))
  else mk (outgoing_calls self)
          (dict.setitem key_eqb (incoming_calls self) find [call]).

(** The calls of one month in a dictionary: [d[(month, year)]] copied when
    the key is there, nothing otherwise. *)
Definition month_of (d : list ((Z * Z) * list TimedCall)) (key : Z * Z)
  : list TimedCall :=
  if dict.contains key_eqb d key
  then match dict.lookup key_eqb d key with
       | Some calls => calls
       | None => []
       end
  else [].

Definition get_monthly_history (self : t) (month year : option Z)
  : list TimedCall * list TimedCall :=
  match month, year with
  | Some m, Some y =>
      (month_of (outgoing_calls self) (m, y),
       month_of (incoming_calls self) (m, y))
  | _, _ =>
      (List.concat (dict.values (outgoing_calls self)),
       List.concat (dict.values (incoming_calls self)))
  end.

End CallHistory.

(** The type of [outgoing_calls] and [incoming_calls]. *)
Definition calls_dict : Type := list ((Z * Z) * list TimedCall).

(** Filing a call under its bill date, the step both [register_] methods
    make on their dictionary (lemmas [register_outgoing_files] and
    [register_incoming_files]). *)
Definition file_call (d : calls_dict) (call : TimedCall) : calls_dict :=
  if dict.contains key_eqb d (get_bill_date call)
  then dict.update key_eqb d (get_bill_date call) (fun calls => calls ++ [call])
  else dict.setitem key_eqb d (get_bill_date call) [call].

(** One registration, outgoing or incoming, as the dataset loader makes
    them. *)
Inductive registration : Type :=
| Outgoing (call : TimedCall)
| Incoming (call : TimedCall).

Definition register (self : CallHistory.t) (r : registration)
  : CallHistory.t :=
  match r with
  | Outgoing call => CallHistory.register_outgoing_call self call
  | Incoming call => CallHistory.register_incoming_call self call
  end.

Definition outgoing_of (rs : list registration) : list TimedCall :=
  flat_map (fun r => match r with Outgoing c => [c] | Incoming _ => [] end) rs.

Definition incoming_of (rs : list registration) : list TimedCall :=
  flat_map (fun r => match r with Outgoing _ => [] | Incoming c => [c] end) rs.

Definition in_month (key : Z * Z) (c : TimedCall) : bool :=
  key_eqb (get_bill_date c) key.

(** What a dictionary of a call history satisfies: one entry per month, no
    entry without calls, and every call under its own bill date. *)
Definition well_keyed (d : calls_dict) : Prop :=
  NoDup (dict.keys d)
  /\ Forall (fun entry =>
               snd entry <> []
               /\ Forall (fun c => get_bill_date c = fst entry) (snd entry)) d.

(** ** Filters (filter.py)

    A Python [str] is a [string], one character per code point.  [int(s)] is
    a parameter of the filters: [int_of s] is the integer the string denotes,
    or [None] where [int] raises [ValueError]. *)

(** [s[1:]] *)
Definition str_tail (s : string) : string :=
  match s with
  | EmptyString => EmptyString
  | String _ rest => rest
  end.

Module DurationFilter.

Definition apply (int_of : string -> option Z) {Customer : Type}
  (customers : list Customer) (data : list Call) (filter_string : string)
  : list Call :=
  match int_of (str_tail filter_string) with
  | None => data                                  (* except ValueError *)
  | Some n =>
      if (4 <? Z.of_nat (String.length filter_string))
         || (Z.of_nat (String.length filter_string) <? 2)
      then data
      else
        match filter_string with
        | EmptyString => data                     (* except IndexError *)
        | String c0 _ =>
            if negb (Ascii.eqb c0 "G") && negb (Ascii.eqb c0 "L") then data
            else
              filter
                (fun dat =>
                   if Ascii.eqb c0 "G" then n <? duration dat
                   else if Ascii.eqb c0 "L" then duration dat <? n
                   else false)
                data
        end
  end.

End DurationFilter.

(** [a == b] on calls, as [in] uses it on a list of calls. *)
Definition Call_eqb (a b : Call) : bool :=
  String.eqb (src_number a) (src_number b)
  && String.eqb (dst_number a) (dst_number b)
  && (duration a =? duration b).

(** [call in calls] *)
Definition call_in (call : Call) (calls : list Call) : bool :=
  existsb (Call_eqb call) calls.

Module CustomerFilter.

(** [get_id] and [get_history] stand for the methods of [Customer]
    (customer.py) the filter calls. *)
Definition apply (int_of : string -> option Z) {Customer : Type}
  (get_id : Customer -> Z)
  (get_history : Customer -> list Call * list Call)
  (customers : list Customer) (data : list Call) (filter_string : string)
  : list Call :=
  match int_of filter_string with
  | None => data                                  (* except ValueError *)
  | Some n =>
      let filter_calls :=
        flat_map
          (fun customer =>
             if get_id customer =? n
             then fst (get_history customer) ++ snd (get_history customer)
             else [])
          customers in
      let unique_calls :=
        filter (fun call => negb (call_in call filter_calls)) filter_calls in
      match unique_calls with
      | [] => data
      | _ :: _ => unique_calls
      end
  end.

End CustomerFilter.

(** An [int] for sample runs: it reads plain decimal digits and refuses
    everything else. *)
Fixpoint digits_value (acc : Z) (s : string) : option Z :=
  match s with
  | EmptyString => Some acc
  | String c rest =>
      let v := Z.of_N (N_of_ascii c) - 48 in
      if (0 <=? v) && (v <=? 9) then digits_value (10 * acc + v) rest
      else None
  end.

Definition decimal_int (s : string) : option Z :=
  match s with
  | EmptyString => None
  | String _ _ => digits_value 0 s
  end.

(** The free-minute counter of a term bill between two calls: below the
    capacity of the pool, or twice the capacity once the pool has been
    used up. *)
Definition pool_state (b : Bill) : Prop :=
  0 <= free_min b < TERM_MINS \/ free_min b = TERM_MINS + TERM_MINS.

(** [month] and [year] as [datetime.date] accepts them. *)
Definition valid_month (month year : Z) : Prop :=
  1 <= month <= 12 /\ 1 <= year <= 9999.

(** * Properties *)

(** ** Dates *)

Section Dates.

Lemma date_le_iff (a b : datetime.date) :
  datetime.le a b = true
  <-> datetime.year a < datetime.year b
      \/ (datetime.year a = datetime.year b
          /\ (datetime.month a < datetime.month b
              \/ (datetime.month a = datetime.month b
                  /\ datetime.day a <= datetime.day b))).
Proof.
  unfold datetime.le.
  rewrite !orb_true_iff, !andb_true_iff, !orb_true_iff, !andb_true_iff.
  rewrite !Z.ltb_lt, !Z.eqb_eq, Z.leb_le. reflexivity.
Qed.

Lemma date_le_refl (a : datetime.date) : datetime.le a a = true.
Proof. apply date_le_iff. lia. Qed.

Lemma date_le_trans (a b c : datetime.date) :
  datetime.le a b = true -> datetime.le b c = true -> datetime.le a c = true.
Proof. rewrite !date_le_iff. lia. Qed.

Lemma date_le_total (a b : datetime.date) :
  datetime.le a b = true \/ datetime.le b a = true.
Proof. rewrite !date_le_iff. lia. Qed.

Lemma date_le_antisym (a b : datetime.date) :
  datetime.le a b = true -> datetime.le b a = true -> a = b.
Proof.
  rewrite !date_le_iff. destruct a, b. cbn. intros H1 H2.
  assert (year = year0 /\ month = month0 /\ day = day0) as (-> & -> & ->)
    by lia.
  reflexivity.
Qed.

End Dates.

(** ** Rounding *)

Section Rounding.

Lemma rne_div_le (n d j : Z) :
  0 < d -> n <= j * d -> Float.rne_div n d <= j.
Proof.
  intros Hd Hn. unfold Float.rne_div.
  pose proof (Z.div_mod n d ltac:(lia)) as Hdm.
  pose proof (Z.mod_pos_bound n d Hd) as Hr.
  set (q := n / d) in *. set (r := n mod d) in *.
  assert (Hq : q <= j) by nia.
  destruct (2 * r <? d) eqn:E1; [lia|].
  apply Z.ltb_ge in E1.
  assert (q < j) by nia.
  destruct (d <? 2 * r); [lia|].
  destruct (Z.even q); lia.
Qed.

Lemma rne_div_ge (n d : Z) :
  0 < d -> 2 * n - d <= 2 * d * Float.rne_div n d.
Proof.
  intros Hd. unfold Float.rne_div.
  pose proof (Z.div_mod n d ltac:(lia)) as Hdm.
  pose proof (Z.mod_pos_bound n d Hd) as Hr.
  set (q := n / d) in *. set (r := n mod d) in *.
  destruct (2 * r <? d) eqn:E1.
  - apply Z.ltb_lt in E1. nia.
  - apply Z.ltb_ge in E1.
    destruct (d <? 2 * r) eqn:E2.
    + nia.
    + apply Z.ltb_ge in E2. destruct (Z.even q); nia.
Qed.

Lemma ilog2_frac_lt (n d k : Z) :
  0 < n -> 0 < d -> 0 <= k -> n < d * 2 ^ k -> Float.ilog2_frac n d < k.
Proof.
  intros Hn Hd Hk Hlt. unfold Float.ilog2_frac.
  pose proof (Z.log2_spec n Hn) as [Hn1 Hn2].
  pose proof (Z.log2_spec d Hd) as [Hd1 Hd2].
  pose proof (Z.log2_nonneg n) as Hln.
  pose proof (Z.log2_nonneg d) as Hld.
  set (ln := Z.log2 n) in *. set (ld := Z.log2 d) in *.
  assert (Hle : ln - ld <= k).
  { destruct (Z_le_gt_dec (ln - ld) k) as [|Hgt]; [assumption|exfalso].
    assert (Hpow : 2 ^ (Z.succ ld) * 2 ^ k <= 2 ^ ln).
    { rewrite <- Z.pow_add_r by lia. apply Z.pow_le_mono_r; lia. }
    pose proof (Z.pow_pos_nonneg 2 k ltac:(lia) Hk).
    nia. }
  destruct (n * 2 ^ Z.max 0 (- (ln - ld)) <? d * 2 ^ Z.max 0 (ln - ld)) eqn:E;
    [lia|].
  apply Z.ltb_ge in E.
  destruct (Z.eq_dec (ln - ld) k) as [Heq|]; [exfalso|lia].
  rewrite Heq in E.
  rewrite (Z.max_l 0 (- k)) in E by lia.
  rewrite (Z.max_r 0 k) in E by lia.
  rewrite Z.pow_0_r in E. lia.
Qed.

Lemma rne_div_1 (n : Z) : Float.rne_div n 1 = n.
Proof.
  unfold Float.rne_div. rewrite Z.mod_1_r, Z.div_1_r. reflexivity.
Qed.

Lemma ilog2_frac_1 (n : Z) : 0 < n -> Float.ilog2_frac n 1 = Z.log2 n.
Proof.
  intros Hn. unfold Float.ilog2_frac.
  change (Z.log2 1) with 0. rewrite Z.sub_0_r.
  pose proof (Z.log2_spec n Hn) as [Hlo _].
  pose proof (Z.log2_nonneg n) as Hk.
  rewrite (Z.max_l 0 (- Z.log2 n)), (Z.max_r 0 (Z.log2 n)) by lia.
  rewrite Z.pow_0_r.
  destruct (n * 1 <? 1 * 2 ^ Z.log2 n) eqn:E; [|reflexivity].
  apply Z.ltb_lt in E. lia.
Qed.

Lemma dyadic_scaled (d s : Z) :
  0 <= s -> Float.dyadic (d * 2 ^ s) (- s) == inject_Z d.
Proof.
  intros Hs. unfold Float.dyadic.
  pose proof (Z.pow_pos_nonneg 2 s ltac:(lia) Hs) as Hp.
  destruct (0 <=? - s) eqn:E.
  - apply Z.leb_le in E. assert (s = 0) by lia. subst s.
    simpl. rewrite !Z.mul_1_r. reflexivity.
  - rewrite Z.opp_involutive. unfold Qeq, inject_Z. simpl.
    rewrite Z2Pos.id by assumption. lia.
Qed.

(** Integers of at most 53 bits are doubles. *)
Lemma round_int_exact (d : Z) :
  0 <= d <= 2 ^ 53 -> Float.round (inject_Z d) == inject_Z d.
Proof.
  intros [Hlo Hhi]. unfold Float.round. simpl Qnum. simpl Qden.
  destruct (d =? 0) eqn:E0.
  - apply Z.eqb_eq in E0. subst d. reflexivity.
  - apply Z.eqb_neq in E0. assert (Hd : 0 < d) by lia.
    rewrite Z.abs_eq by lia. rewrite ilog2_frac_1 by assumption.
    pose proof (Z.log2_nonneg d) as Hk.
    pose proof (Z.log2_spec d Hd) as [Hk1 Hk2].
    assert (Hk53 : Z.log2 d <= 53).
    { rewrite <- (Z.log2_pow2 53) by lia. apply Z.log2_le_mono. exact Hhi. }
    rewrite (Z.max_l (Z.log2 d - 52) (-1074)) by lia.
    destruct (Z.eq_dec (Z.log2 d) 53) as [H53|H53].
    + rewrite H53 in *. assert (d = 2 ^ 53) by lia. subst d.
      vm_compute. reflexivity.
    + set (s := 52 - Z.log2 d).
      replace (Z.log2 d - 52) with (- s) by (unfold s; lia).
      rewrite Z.opp_involutive.
      rewrite (Z.max_r 0 s), (Z.max_l 0 (- s)) by (unfold s; lia).
      rewrite Z.pow_0_r. rewrite rne_div_1.
      apply dyadic_scaled. unfold s; lia.
Qed.

Lemma of_int_exact (d : Z) :
  0 <= d <= 2 ^ 53 ->
  exists x, Float.of_int d = Ok x /\ x == inject_Z d.
Proof.
  intros Hd. unfold Float.of_int.
  pose proof (round_int_exact d Hd) as Hr.
  set (r := Float.round (inject_Z d)) in *.
  destruct (Qle_bool (inject_Z (2 ^ 1024)) (Qabs r)) eqn:E.
  - exfalso. apply Qle_bool_iff in E. rewrite Hr in E.
    unfold Qle, inject_Z, Qabs in E. simpl Qnum in E. simpl Qden in E.
    rewrite Z.abs_eq in E by lia.
    assert (2 ^ 53 < 2 ^ 1024) by (apply Z.pow_lt_mono_r; lia).
    lia.
  - exists r. split; [reflexivity|assumption].
Qed.

(** The quotient of a positive integer of at most 53 bits by 60, rounded to
    a double, still has the ceiling of the exact quotient. *)
Lemma ceil_round_div60 (y : Q) (d : Z) :
  0 < d <= 2 ^ 53 ->
  y == inject_Z d / inject_Z 60 ->
  Float.ceil (Float.round y) = (d + 59) / 60.
Proof.
  intros [Hlo Hhi] Hy.
  destruct y as [N D]. unfold Qeq in Hy. simpl in Hy.
  change (2 ^ 53) with 9007199254740992 in Hhi.
  assert (HN : 0 < N) by nia.
  unfold Float.round. simpl Qnum. simpl Qden.
  destruct (N =? 0) eqn:E0; [apply Z.eqb_eq in E0; lia|].
  rewrite Z.abs_eq by lia.
  assert (Hil : Float.ilog2_frac N (Z.pos D) < 48).
  { apply ilog2_frac_lt; try lia.
    change (2 ^ 48) with 281474976710656. nia. }
  set (e := Z.max (Float.ilog2_frac N (Z.pos D) - 52) (-1074)).
  assert (He : -1074 <= e <= -5) by (unfold e; lia).
  clearbody e. clear Hil.
  set (s := - e). assert (Hs : 5 <= s) by (unfold s; lia).
  replace e with (- s) by (unfold s; lia).
  rewrite (Z.max_r 0 s), (Z.max_l 0 (- s)) by lia.
  rewrite Z.pow_0_r, Z.mul_1_r.
  assert (HP : 32 <= 2 ^ s).
  { change 32 with (2 ^ 5). apply Z.pow_le_mono_r; lia. }
  set (P := 2 ^ s) in *.
  set (K := (d + 59) / 60).
  assert (HK : 60 * K <= d + 59 < 60 * K + 60).
  { pose proof (Z.div_mod (d + 59) 60 ltac:(lia)).
    pose proof (Z.mod_pos_bound (d + 59) 60 ltac:(lia)). unfold K. lia. }
  pose proof (rne_div_le (N * P) (Z.pos D) (K * P) ltac:(lia)) as Hup.
  pose proof (rne_div_ge (N * P) (Z.pos D) ltac:(lia)) as Hdown.
  set (m := Float.rne_div (N * P) (Z.pos D)) in *.
  assert (HNK : N <= K * Z.pos D) by nia.
  assert (Hm1 : m <= K * P).
  { apply Hup. replace (K * P * Z.pos D) with (K * Z.pos D * P) by ring.
    apply Z.mul_le_mono_nonneg_r; lia. }
  assert (Hm2 : (K - 1) * P < m).
  { destruct (Z_lt_le_dec ((K - 1) * P) m) as [|Hc]; [assumption|exfalso].
    assert (H1 : 2 * N * P - Z.pos D <= 2 * Z.pos D * ((K - 1) * P)) by nia.
    assert (H2 : 60 * (2 * N * P) - 60 * Z.pos D
                 <= 60 * (2 * Z.pos D * ((K - 1) * P))) by lia.
    assert (H3 : 60 * (2 * N * P) = 2 * P * (d * Z.pos D)) by nia.
    assert (H4 : Z.pos D * (2 * P * (d - 60 * (K - 1))) <= Z.pos D * 60) by nia.
    assert (H5 : 2 * P * (d - 60 * (K - 1)) <= 60).
    { apply Z.mul_le_mono_pos_l with (p := Z.pos D); lia. }
    nia. }
  unfold Float.dyadic, Float.ceil.
  destruct (0 <=? - s) eqn:E; [apply Z.leb_le in E; lia|].
  rewrite Z.opp_involutive. fold P.
  unfold Qceiling, Qfloor, Qopp. simpl Qnum. simpl Qden.
  rewrite Z2Pos.id by lia.
  assert (Hdiv : - m / P = - K).
  { symmetry. apply Z.div_unique with (r := K * P - m); lia. }
  rewrite Hdiv. lia.
Qed.

End Rounding.

(** ** Minutes of a call *)

Section CallMinutes.

Lemma ceil60_spec (d : Z) : 60 * (ceil60 d - 1) < d <= 60 * ceil60 d.
Proof.
  unfold ceil60.
  pose proof (Z.div_mod (d + 59) 60 ltac:(lia)).
  pose proof (Z.mod_pos_bound (d + 59) 60 ltac:(lia)).
  lia.
Qed.

Lemma ceil60_unique (d m : Z) : 60 * (m - 1) < d <= 60 * m -> m = ceil60 d.
Proof.
  intros H. pose proof (ceil60_spec d). lia.
Qed.

Lemma ceil60_nonneg (d : Z) : 0 <= d -> 0 <= ceil60 d.
Proof.
  intros H. pose proof (ceil60_spec d). lia.
Qed.

Lemma call_minutes_exact (call : Call) :
  exact_duration call -> call_minutes call = Ok (ceil60 (duration call)).
Proof.
  unfold exact_duration, MAX_EXACT_SECONDS. intros Hd.
  unfold call_minutes.
  destruct (of_int_exact (duration call) Hd) as (x & Hx & Hxd).
  rewrite Hx. cbn [bind].
  unfold Float.div. change (Qeq_bool (inject_Z 60) 0) with false. cbn [bind].
  f_equal.
  destruct (Z.eq_dec (duration call) 0) as [Hz|Hnz].
  - rewrite Hz in *. change (ceil60 0) with 0.
    assert (Hn : Qnum x = 0).
    { unfold Qeq in Hxd. simpl in Hxd. lia. }
    unfold Float.round. simpl Qnum. rewrite Hn. reflexivity.
  - apply ceil_round_div60; [lia|]. rewrite Hxd. reflexivity.
Qed.

End CallMinutes.

(** ** Running the methods *)

Ltac run_methods :=
  cbv [bill_calls for_each new_month bill_call cancel_contract
       Term_contract MTM_contract Prepaid_contract
       TermContract.new_month TermContract.bill_call
       TermContract.cancel_contract TermContract.set_current
       MTMContract.new_month MTMContract.bill_call
       MTMContract.cancel_contract
       PrepaidContract.new_month PrepaidContract.bill_call
       PrepaidContract.cancel_contract PrepaidContract.set_balance
       Contract.new_month Contract.bill_call Contract.cancel_contract
       Contract.the_bill Contract.update_bill Contract.set_bill
       Contract.set_start
       upcast mbind ret raise lift get modify deref
       with_bill bill_of start_of base set_base
       TermContract.inherits MTMContract.inherits PrepaidContract.inherits
       Contract.start Contract.bill
       TermContract.super TermContract.end_ TermContract.current
       MTMContract.super PrepaidContract.super PrepaidContract.balance
       fst snd].

Ltac exact_calls :=
  repeat (apply Forall_cons;
          [unfold exact_duration, MAX_EXACT_SECONDS; cbn; lia|]);
  apply Forall_nil.

Section Steps.

Lemma mtm_bill_call_step (self : MTMContract.t) (b : Bill) (call : Call)
      (m : Z) :
  bill_of self = Some b ->
  call_minutes call = Ok m ->
  bill_call call self
  = (Ok tt, with_bill (Some (add_billed_minutes b m)) self).
Proof.
  destruct self as [[st ob]]. run_methods. intros -> ->. reflexivity.
Qed.

Lemma prepaid_bill_call_step (self : PrepaidContract.t) (b : Bill)
      (call : Call) (m : Z) (balance' : Py.number) :
  bill_of self = Some b ->
  call_minutes call = Ok m ->
  prepaid_charge (PrepaidContract.balance self) m = Ok balance' ->
  bill_call call self
  = (Ok tt,
     PrepaidContract.mk
       (Contract.mk (start_of self) (Some (add_billed_minutes b m)))
       balance').
Proof.
  destruct self as [[st ob] bal]. unfold prepaid_charge, bind.
  run_methods. intros -> ->.
  destruct (Py.mul (Py.Int m) (Py.literal PREPAID_MINS_COST)) as [charge|e];
    [|discriminate].
  intros ->. reflexivity.
Qed.

Lemma prepaid_bill_call_raises (self : PrepaidContract.t) (call : Call)
      (m : Z) (e : exn) :
  call_minutes call = Ok m ->
  prepaid_charge (PrepaidContract.balance self) m = Raise e ->
  bill_call call self = (Raise e, self).
Proof.
  destruct self as [[st ob] bal]. unfold prepaid_charge, bind.
  run_methods. intros ->.
  destruct (Py.mul (Py.Int m) (Py.literal PREPAID_MINS_COST)) as [charge|e'].
  - intros ->. reflexivity.
  - intros H. inversion H. reflexivity.
Qed.

Lemma term_bill_call_absorb (self : TermContract.t) (b : Bill) (call : Call)
      (m : Z) :
  bill_of self = Some b ->
  call_minutes call = Ok m ->
  free_min b + m < TERM_MINS ->
  bill_call call self
  = (Ok tt, with_bill (Some (set_free_min b (free_min b + m))) self).
Proof.
  destruct self as [[st ob] e c]. run_methods. intros -> -> Hlt.
  apply Z.ltb_lt in Hlt. rewrite Hlt. reflexivity.
Qed.

Lemma term_bill_call_flush (self : TermContract.t) (b : Bill) (call : Call)
      (m : Z) :
  bill_of self = Some b ->
  call_minutes call = Ok m ->
  TERM_MINS <= free_min b + m ->
  free_min b <> TERM_MINS ->
  bill_call call self
  = (Ok tt,
     with_bill
       (Some (mkBill (billed_min b + (m - (TERM_MINS - free_min b)))
                     (TERM_MINS + TERM_MINS)
                     (min_rate b) (fixed_cost b) (plan_tag b)))
       self).
Proof.
  destruct self as [[st ob] e c]. run_methods. intros -> -> Hge Hne.
  apply Z.ltb_ge in Hge. rewrite Hge.
  assert (Hnz : (free_min b - TERM_MINS =? 0) = false)
    by (apply Z.eqb_neq; lia).
  rewrite Hnz. cbn [negb].
  unfold add_billed_minutes, add_free_minutes, set_free_min.
  cbn [billed_min free_min min_rate fixed_cost plan_tag].
  do 5 f_equal. unfold TERM_MINS. lia.
Qed.

Lemma term_bill_call_exhausted (self : TermContract.t) (b : Bill)
      (call : Call) (m : Z) :
  bill_of self = Some b ->
  call_minutes call = Ok m ->
  0 <= m ->
  free_min b = TERM_MINS ->
  bill_call call self
  = (Ok tt, with_bill (Some (add_billed_minutes b m)) self).
Proof.
  destruct self as [[st ob] e c]. run_methods. intros -> -> Hm Hfull.
  rewrite Hfull.
  assert (Hge : (TERM_MINS + m <? TERM_MINS) = false)
    by (apply Z.ltb_ge; lia).
  rewrite Hge. rewrite Z.sub_diag. cbn [Z.eqb negb].
  do 5 f_equal. lia.
Qed.

End Steps.

(** ** Month-to-month contracts *)

Section MonthToMonth.

Lemma add_billed_minutes_0 (b : Bill) : add_billed_minutes b 0 = b.
Proof.
  destruct b. unfold add_billed_minutes. cbn. rewrite Z.add_0_r. reflexivity.
Qed.

Lemma add_billed_minutes_twice (b : Bill) (m n : Z) :
  add_billed_minutes (add_billed_minutes b m) n = add_billed_minutes b (m + n).
Proof.
  unfold add_billed_minutes. cbn. rewrite Z.add_assoc. reflexivity.
Qed.

Lemma mtm_with_bill_same (self : MTMContract.t) (b : Bill) :
  bill_of self = Some b -> with_bill (Some b) self = self.
Proof.
  destruct self as [[st ob]]. run_methods. intros ->. reflexivity.
Qed.

Lemma mtm_with_bill_twice (self : MTMContract.t) (o1 o2 : option Bill) :
  with_bill o2 (with_bill o1 self) = with_bill o2 self.
Proof. reflexivity. Qed.

Lemma mtm_bill_of_with_bill (self : MTMContract.t) (o : option Bill) :
  bill_of (with_bill o self) = o.
Proof. reflexivity. Qed.

Lemma mtm_bill_calls_exact (calls : list Call) :
  Forall exact_duration calls ->
  forall (self : MTMContract.t) (b : Bill),
    bill_of self = Some b ->
    bill_calls calls self
    = (Ok tt,
       with_bill (Some (add_billed_minutes b (minutes_per_call calls))) self).
Proof.
  induction 1 as [|call calls Hc _ IH]; intros self b Hb.
  - change (minutes_per_call []) with 0.
    rewrite add_billed_minutes_0, (mtm_with_bill_same _ _ Hb).
    reflexivity.
  - change (bill_calls (call :: calls) self)
      with (mbind (bill_call call) (fun _ => bill_calls calls) self).
    unfold mbind.
    rewrite (mtm_bill_call_step self b call _ Hb (call_minutes_exact _ Hc)).
    rewrite (IH _ _ (mtm_bill_of_with_bill _ _)).
    rewrite mtm_with_bill_twice, add_billed_minutes_twice. reflexivity.
Qed.

Lemma for_each_app {S A : Type} (body : A -> M S unit) (xs ys : list A)
      (self : S) :
  for_each body (xs ++ ys) self
  = mbind (for_each body xs) (fun _ => for_each body ys) self.
Proof.
  revert self. induction xs as [|x xs IH]; intros self.
  - reflexivity.
  - cbn [app for_each]. unfold mbind in *.
    destruct (body x self) as [[[]|e] s1]; [|reflexivity].
    apply IH.
Qed.

(** Billing the calls group by group is billing them all in a row. *)
Lemma bill_groups_concat {S : Type} `{ContractClass S}
      (groups : list (list Call)) (self : S) :
  for_each bill_calls groups self = bill_calls (List.concat groups) self.
Proof.
  revert self. induction groups as [|g groups IH]; intros self.
  - reflexivity.
  - cbn [List.concat for_each].
    change (bill_calls (g ++ List.concat groups) self)
      with (for_each bill_call (g ++ List.concat groups) self).
    rewrite for_each_app. unfold mbind.
    change (for_each bill_call g self) with (bill_calls g self).
    destruct (bill_calls g self) as [[[]|e] s1]; [|reflexivity].
    rewrite IH. reflexivity.
Qed.

Lemma minutes_per_call_perm (xs ys : list Call) :
  Permutation xs ys -> minutes_per_call xs = minutes_per_call ys.
Proof.
  unfold minutes_per_call.
  induction 1; cbn [map fold_right] in *; lia.
Qed.

Lemma per_call_rounding_ge_aggregate (calls : list Call) :
  ceil60 (total_seconds calls) <= minutes_per_call calls.
Proof.
  assert (H : total_seconds calls <= 60 * minutes_per_call calls).
  { unfold total_seconds, minutes_per_call.
    induction calls as [|c calls IH]; cbn [map fold_right]; [lia|].
    pose proof (ceil60_spec (duration c)). lia. }
  pose proof (ceil60_spec (total_seconds calls)). lia.
Qed.

Lemma mtm_new_month_step (self : MTMContract.t) (month year : Z) (b : Bill) :
  new_month month year b self
  = (Ok tt,
     with_bill
       (Some (add_fixed_cost (set_rates b "MTM" MTM_MINS_COST) MTM_MONTHLY_FEE))
       self).
Proof.
  destruct self as [[st ob]]. reflexivity.
Qed.

(** C7 (as amended).  After [new_month] on a fresh bill, billing calls of at
    most [2^53] seconds each, split into groups and ordered in any way, leaves
    a bill whose billed minutes are the sum of the per-call ceilings and whose
    cost is 50.00 plus 0.05 times that sum.  Per-call rounding never bills
    fewer minutes than rounding the total of the seconds would, and for some
    calls it bills more. *)
Theorem mtm_month_cost_per_call_rounding
        (self : MTMContract.t) (month year : Z)
        (calls : list Call) (groups : list (list Call)) :
  Forall exact_duration calls ->
  Permutation (List.concat groups) calls ->
  exists (self' : MTMContract.t) (b : Bill),
    (new_month month year Bill_init >> for_each bill_calls groups) self
    = (Ok tt, self')
    /\ bill_of self' = Some b
    /\ billed_min b = minutes_per_call calls
    /\ get_cost b == 50 + inject_Z (minutes_per_call calls) * (5 # 100)
    /\ ceil60 (total_seconds calls) <= minutes_per_call calls
    /\ (exists calls0 : list Call,
           Forall exact_duration calls0
           /\ ~ 50 + inject_Z (ceil60 (total_seconds calls0)) * (5 # 100)
                == 50 + inject_Z (minutes_per_call calls0) * (5 # 100)).
Proof.
  intros Hexact Hperm.
  assert (Hexact' : Forall exact_duration (List.concat groups)).
  { rewrite Forall_forall in *. intros c Hc. apply Hexact.
    eapply Permutation_in; eassumption. }
  set (b0 := add_fixed_cost (set_rates Bill_init "MTM" MTM_MINS_COST)
                            MTM_MONTHLY_FEE).
  exists (with_bill (Some (add_billed_minutes b0 (minutes_per_call calls))) self).
  exists (add_billed_minutes b0 (minutes_per_call calls)).
  split; [|split; [|split; [|split; [|split]]]].
  - unfold mbind. rewrite mtm_new_month_step. fold b0.
    rewrite bill_groups_concat.
    rewrite (mtm_bill_calls_exact _ Hexact' _ b0 (mtm_bill_of_with_bill _ _)).
    rewrite mtm_with_bill_twice.
    rewrite (minutes_per_call_perm _ _ Hperm). reflexivity.
  - apply mtm_bill_of_with_bill.
  - cbn. reflexivity.
  - unfold get_cost. cbn [add_billed_minutes b0 add_fixed_cost set_rates
                          Bill_init billed_min fixed_cost min_rate].
    rewrite Z.add_0_l. unfold MTM_MONTHLY_FEE, MTM_MINS_COST.
    rewrite Qplus_0_l. reflexivity.
  - apply per_call_rounding_ge_aggregate.
  - exists [call_of 30; call_of 30]. split.
    + exact_calls.
    + vm_compute. discriminate.
Qed.

Lemma mtm_month_cost_per_call_rounding_witness :
  exists (self' : MTMContract.t) (b : Bill),
    (new_month 1 2025 Bill_init
       >> for_each bill_calls [[call_of 61]; [call_of 30; call_of 30]])
      (MTMContract.__init__ jan15_2025)
    = (Ok tt, self')
    /\ bill_of self' = Some b
    /\ billed_min b = 4.
Proof.
  destruct (mtm_month_cost_per_call_rounding
              (MTMContract.__init__ jan15_2025) 1 2025
              [call_of 30; call_of 61; call_of 30]
              [[call_of 61]; [call_of 30; call_of 30]])
    as (self' & b & Hrun & Hb & Hmin & _).
  - exact_calls.
  - cbn [List.concat app]. apply perm_swap.
  - exists self', b. split; [exact Hrun|]. split; [exact Hb|]. exact Hmin.
Defined.

(** C7 (as stated) fails for a call long enough that its duration is not a
    double: the billed minutes are one short of the ceiling. *)
Lemma mtm_cost_lossy_duration :
  exists (self' : MTMContract.t) (b : Bill),
    (new_month 1 2025 Bill_init >> bill_calls [call_of LOSSY_SECONDS])
      (MTMContract.__init__ jan15_2025)
    = (Ok tt, self')
    /\ bill_of self' = Some b
    /\ billed_min b = 150119987579017
    /\ minutes_per_call [call_of LOSSY_SECONDS] = 150119987579018
    /\ ~ get_cost b
         == 50 + inject_Z (minutes_per_call [call_of LOSSY_SECONDS]) * (5 # 100).
Proof.
  eexists. eexists.
  split; [vm_compute; reflexivity|].
  split; [reflexivity|].
  split; [reflexivity|].
  split; [reflexivity|].
  vm_compute. discriminate.
Qed.

End MonthToMonth.

(** ** Minutes billed by each variant *)

Section MinutesBilled.

(** C8 (as amended).  For a call of at most [2^53] seconds, the minutes every
    variant bills are the integer ceiling [m] of [duration / 60]: the base
    and month-to-month method adds [m] billed minutes, the prepaid one adds
    [m] billed minutes and [m] times the rate to the balance (in Python's
    arithmetic, whose [OverflowError] leaves the contract as it was), and
    the term one absorbs [m] into the pool or bills what of [m] exceeds the
    pool. *)
Theorem bill_call_minutes_exact (call : Call) (b : Bill) :
  exact_duration call ->
  exists m : Z,
    60 * (m - 1) < duration call <= 60 * m
    /\ call_minutes call = Ok m
    /\ (forall self : MTMContract.t,
           bill_of self = Some b ->
           bill_call call self
           = (Ok tt, with_bill (Some (add_billed_minutes b m)) self))
    /\ (forall self : PrepaidContract.t,
           bill_of self = Some b ->
           match prepaid_charge (PrepaidContract.balance self) m with
           | Ok balance' =>
               exists self' : PrepaidContract.t,
                 bill_call call self = (Ok tt, self')
                 /\ PrepaidContract.balance self' = balance'
                 /\ bill_of self' = Some (add_billed_minutes b m)
                 /\ start_of self' = start_of self
           | Raise e => bill_call call self = (Raise e, self)
           end)
    /\ (forall self : TermContract.t,
           bill_of self = Some b ->
           exists b' : Bill,
             bill_call call self = (Ok tt, with_bill (Some b') self)
             /\ (free_min b + m < 100 ->
                 b' = set_free_min b (free_min b + m))
             /\ (100 <= free_min b + m ->
                 billed_min b' = billed_min b + (m - (100 - free_min b)))).
Proof.
  intros Hd. exists (ceil60 (duration call)).
  pose proof (call_minutes_exact call Hd) as Hm.
  split; [apply ceil60_spec|]. split; [exact Hm|].
  split; [|split].
  - intros self Hb. apply mtm_bill_call_step; assumption.
  - intros self Hb.
    destruct (prepaid_charge (PrepaidContract.balance self)
                (ceil60 (duration call))) as [balance'|e] eqn:Echarge.
    + eexists. split;
        [exact (prepaid_bill_call_step _ _ _ _ _ Hb Hm Echarge)|].
      split; [reflexivity|]. split; reflexivity.
    + exact (prepaid_bill_call_raises _ _ _ _ Hm Echarge).
  - intros self Hb.
    assert (Hm0 : 0 <= ceil60 (duration call))
      by (apply ceil60_nonneg; apply Hd).
    set (m := ceil60 (duration call)) in *. clearbody m.
    destruct (Z_lt_le_dec (free_min b + m) TERM_MINS) as [Hlt|Hge].
    + eexists. split; [apply term_bill_call_absorb; eassumption|].
      unfold TERM_MINS in *.
      split; [reflexivity|intros Hc; exfalso; lia].
    + destruct (Z.eq_dec (free_min b) TERM_MINS) as [Hfull|Hpart].
      * eexists. split; [apply term_bill_call_exhausted; eassumption|].
        unfold TERM_MINS in *. split; [intros Hc; exfalso; lia|].
        intros _. unfold add_billed_minutes. cbn [billed_min]. lia.
      * eexists. split; [apply term_bill_call_flush; eassumption|].
        unfold TERM_MINS in *. split; [intros Hc; exfalso; lia|].
        intros _. reflexivity.
Qed.

Lemma bill_call_minutes_exact_witness :
  exists m : Z,
    60 * (m - 1) < 61 <= 60 * m
    /\ call_minutes (call_of 61) = Ok m.
Proof.
  destruct (bill_call_minutes_exact (call_of 61) Bill_init)
    as (m & Hceil & Hm & _).
  - unfold exact_duration, MAX_EXACT_SECONDS. cbn. lia.
  - exists m. split; [exact Hceil|exact Hm].
Defined.

(** C8 (as stated) fails beyond [2^53] seconds: the minutes billed for a call
    of [LOSSY_SECONDS] seconds are one short of the ceiling. *)
Lemma bill_call_minutes_lossy_duration :
  0 <= duration (call_of LOSSY_SECONDS)
  /\ call_minutes (call_of LOSSY_SECONDS) = Ok 150119987579017
  /\ ~ 60 * (150119987579017 - 1) < duration (call_of LOSSY_SECONDS)
       <= 60 * 150119987579017
  /\ bill_call (call_of LOSSY_SECONDS)
       (with_bill (Some Bill_init) (MTMContract.__init__ jan15_2025))
     = (Ok tt,
        with_bill (Some (add_billed_minutes Bill_init 150119987579017))
          (MTMContract.__init__ jan15_2025)).
Proof.
  split; [cbn; unfold LOSSY_SECONDS; lia|].
  split; [vm_compute; reflexivity|].
  split; [cbn; unfold LOSSY_SECONDS; lia|].
  vm_compute. reflexivity.
Qed.

End MinutesBilled.

(** ** Term contracts *)

Section Term.

Lemma term_with_bill_same (self : TermContract.t) (b : Bill) :
  bill_of self = Some b -> with_bill (Some b) self = self.
Proof.
  destruct self as [[st ob] e c]. run_methods. intros ->. reflexivity.
Qed.

Lemma set_free_min_same (b : Bill) : set_free_min b (free_min b) = b.
Proof. destruct b. reflexivity. Qed.

Lemma date_new_ok (y m d : Z) (x : datetime.date) :
  datetime.new y m d = Ok x -> x = datetime.mkDate y m d.
Proof.
  unfold datetime.new.
  destruct (negb (datetime.fits_c_int y && datetime.fits_c_int m
                  && datetime.fits_c_int d)); [discriminate|].
  destruct ((1 <=? y) && (y <=? 9999) && (1 <=? m) && (m <=? 12)
            && (1 <=? d) && (d <=? datetime.days_in_month y m));
    [|discriminate].
  intros H. inversion H. reflexivity.
Qed.

Lemma term_new_month_ok (self self' : TermContract.t) (month year : Z)
      (bill : Bill) :
  new_month month year bill self = (Ok tt, self') ->
  exists b : Bill,
    self' = TermContract.set_current (datetime.mkDate year month 1)
              (with_bill (Some b) self)
    /\ free_min b = 0
    /\ billed_min b = billed_min bill.
Proof.
  destruct self as [[st ob] e c]. run_methods.
  destruct st as [s|]; [|discriminate].
  destruct (datetime.new year month 1) as [d|e'] eqn:Enew;
    destruct ((datetime.month s =? month) && (datetime.year s =? year));
    intros H; inversion H; subst; clear H;
    apply date_new_ok in Enew; subst d;
    eexists; (split; [reflexivity|split; reflexivity]).
Qed.

(** C1.  In a month whose pool is still empty, one call of 9000 seconds
    (150 minutes) bills 50 minutes but leaves the bill's free-minutes counter
    at 200: the pool is first filled to 100 and then added to itself. *)
Theorem term_bill_call_150_minutes (self : TermContract.t) (b : Bill) :
  bill_of self = Some b ->
  free_min b = 0 ->
  bill_call (call_of 9000) self
  = (Ok tt,
     with_bill
       (Some (mkBill (billed_min b + 50) 200
                     (min_rate b) (fixed_cost b) (plan_tag b)))
       self).
Proof.
  intros Hb Hfree.
  assert (Hm : call_minutes (call_of 9000) = Ok 150)
    by (vm_compute; reflexivity).
  rewrite (term_bill_call_flush self b _ 150 Hb Hm);
    unfold TERM_MINS; try lia.
  rewrite Hfree. reflexivity.
Qed.

Lemma term_bill_call_150_minutes_witness :
  exists (self' : TermContract.t) (b' : Bill),
    (new_month 1 2025 Bill_init >> bill_call (call_of 9000))
      (TermContract.__init__ jan15_2025 jan15_2027)
    = (Ok tt, self')
    /\ bill_of self' = Some b'
    /\ free_min b' = 200
    /\ billed_min b' = 50.
Proof.
  pose (self1 := snd (new_month 1 2025 Bill_init
                        (TermContract.__init__ jan15_2025 jan15_2027))).
  pose (b1 := mkBill 0 0 TERM_MINS_COST (0 + TERM_DEPOSIT + TERM_MONTHLY_FEE)
                     "TERM").
  pose proof (term_bill_call_150_minutes self1 b1 eq_refl eq_refl) as Hrun.
  eexists. eexists. split.
  - unfold mbind.
    change (new_month 1 2025 Bill_init
              (TermContract.__init__ jan15_2025 jan15_2027))
      with (@Ok unit tt, self1).
    exact Hrun.
  - split; [reflexivity|]. split; reflexivity.
Defined.

(** C2.  A single call of 6000 seconds fills the pool to exactly 100 minutes,
    and the bill's free-minutes counter ends at 200 rather than 100; a further
    call of 0 seconds is then billed 100 minutes. *)
Theorem term_pool_filled_exactly :
  minutes_per_call [call_of 6000] = 100
  /\ (exists (self' : TermContract.t) (b' : Bill),
         (new_month 1 2025 Bill_init >> bill_calls [call_of 6000])
           (TermContract.__init__ jan15_2025 jan15_2027)
         = (Ok tt, self')
         /\ bill_of self' = Some b'
         /\ free_min b' = 200
         /\ billed_min b' = 0)
  /\ minutes_per_call [call_of 6000; call_of 0] = 100
  /\ (exists (self' : TermContract.t) (b' : Bill),
         (new_month 1 2025 Bill_init >> bill_calls [call_of 6000; call_of 0])
           (TermContract.__init__ jan15_2025 jan15_2027)
         = (Ok tt, self')
         /\ bill_of self' = Some b'
         /\ free_min b' = 200
         /\ billed_min b' = 100).
Proof.
  split; [reflexivity|]. split.
  - eexists. eexists. split; [vm_compute; reflexivity|].
    split; [reflexivity|]. split; reflexivity.
  - split; [reflexivity|].
    eexists. eexists. split; [vm_compute; reflexivity|].
    split; [reflexivity|]. split; reflexivity.
Qed.

(** Below the capacity of the pool the calls are absorbed: the counter is the
    sum of their minutes and nothing else on the bill changes. *)
Lemma term_bill_calls_below_capacity (calls : list Call) :
  Forall exact_duration calls ->
  forall (self : TermContract.t) (b : Bill),
    bill_of self = Some b ->
    free_min b + minutes_per_call calls < TERM_MINS ->
    bill_calls calls self
    = (Ok tt,
       with_bill
         (Some (set_free_min b (free_min b + minutes_per_call calls))) self).
Proof.
  induction 1 as [|call calls Hc Hcs IH]; intros self b Hb Hsum.
  - change (minutes_per_call []) with 0. rewrite Z.add_0_r.
    rewrite set_free_min_same, (term_with_bill_same _ _ Hb). reflexivity.
  - change (minutes_per_call (call :: calls))
      with (ceil60 (duration call) + minutes_per_call calls) in *.
    assert (Hrest : 0 <= minutes_per_call calls).
    { clear - Hcs. unfold minutes_per_call.
      induction Hcs as [|c cs Hc' _ IH']; cbn [map fold_right]; [lia|].
      pose proof (ceil60_nonneg (duration c) (proj1 Hc')). lia. }
    change (bill_calls (call :: calls) self)
      with (mbind (bill_call call) (fun _ => bill_calls calls) self).
    unfold mbind.
    rewrite (term_bill_call_absorb self b call _ Hb
               (call_minutes_exact _ Hc)) by lia.
    rewrite (IH _ (set_free_min b (free_min b + ceil60 (duration call))))
      by (try reflexivity; cbn [set_free_min free_min]; lia).
    cbn [set_free_min free_min billed_min min_rate fixed_cost plan_tag].
    rewrite Z.add_assoc. reflexivity.
Qed.

(** C3.  Once [new_month month year] has run, the current-period marker is
    the first day of that month, and [cancel_contract] returns 0 when the
    end date is on or before the marker and 300.00 - 20.00 = 280.00
    otherwise. *)
Theorem term_cancel_contract_amount
        (self self' : TermContract.t) (month year : Z) (bill : Bill) :
  new_month month year bill self = (Ok tt, self') ->
  TermContract.current self' = datetime.mkDate year month 1
  /\ TermContract.end_ self' = TermContract.end_ self
  /\ cancel_contract self'
     = (Ok (if datetime.le (TermContract.end_ self)
                           (datetime.mkDate year month 1)
            then 0%Q else 280%Q),
        self').
Proof.
  intros Hnm. destruct (term_new_month_ok _ _ _ _ _ Hnm) as (b & -> & _).
  destruct self as [[st ob] e c]. run_methods.
  split; [reflexivity|]. split; [reflexivity|].
  destruct (datetime.le e (datetime.mkDate year month 1)); reflexivity.
Qed.

Lemma term_cancel_contract_amount_witness :
  fst (cancel_contract
         (snd (new_month 1 2025 Bill_init
                 (TermContract.__init__ jan15_2025 jan15_2027))))
  = Ok 280%Q.
Proof.
  pose (self0 := TermContract.__init__ jan15_2025 jan15_2027).
  pose (self1 := snd (new_month 1 2025 Bill_init self0)).
  destruct (term_cancel_contract_amount self0 self1 1 2025 Bill_init eq_refl)
    as (_ & _ & Hcancel).
  change (fst (cancel_contract self1) = Ok 280%Q).
  rewrite Hcancel. reflexivity.
Defined.

End Term.

(** ** Prepaid contracts *)

Section Prepaid.

Lemma round_int_exact_abs (z : Z) :
  Z.abs z <= 2 ^ 53 -> Float.round (inject_Z z) == inject_Z z.
Proof.
  intros Hz. unfold Float.round. simpl Qnum. simpl Qden.
  destruct (z =? 0) eqn:E0.
  - apply Z.eqb_eq in E0. subst z. reflexivity.
  - apply Z.eqb_neq in E0. assert (Ha : 0 < Z.abs z) by lia.
    rewrite ilog2_frac_1 by assumption.
    pose proof (Z.log2_nonneg (Z.abs z)) as Hk.
    pose proof (Z.log2_spec (Z.abs z) Ha) as [Hk1 Hk2].
    assert (Hk53 : Z.log2 (Z.abs z) <= 53).
    { rewrite <- (Z.log2_pow2 53) by lia. apply Z.log2_le_mono. exact Hz. }
    rewrite (Z.max_l (Z.log2 (Z.abs z) - 52) (-1074)) by lia.
    destruct (Z.eq_dec (Z.log2 (Z.abs z)) 53) as [H53|H53].
    + rewrite H53 in *. assert (Habs : Z.abs z = 2 ^ 53) by lia.
      destruct (Z.abs_eq_or_opp z) as [Hs|Hs]; rewrite Hs in Habs.
      * subst z. vm_compute. reflexivity.
      * assert (z = - 2 ^ 53) by lia. subst z. vm_compute. reflexivity.
    + set (s := 52 - Z.log2 (Z.abs z)).
      replace (Z.log2 (Z.abs z) - 52) with (- s) by (unfold s; lia).
      rewrite Z.opp_involutive.
      rewrite (Z.max_r 0 s), (Z.max_l 0 (- s)) by (unfold s; lia).
      rewrite Z.pow_0_r. rewrite rne_div_1.
      apply dyadic_scaled. unfold s; lia.
Qed.

Lemma float_of_int_small (z : Z) :
  Z.abs z <= 2 ^ 53 ->
  exists q : Q, Py.float_of_int z = Ok (Py.Finite q) /\ q == inject_Z z.
Proof.
  intros Hz. unfold Py.float_of_int, Float.of_int.
  pose proof (round_int_exact_abs z Hz) as Hr.
  set (r := Float.round (inject_Z z)) in *.
  destruct (Qle_bool (inject_Z (2 ^ 1024)) (Qabs r)) eqn:E.
  - exfalso. apply Qle_bool_iff in E. rewrite Hr in E.
    unfold Qle, inject_Z, Qabs in E. simpl Qnum in E. simpl Qden in E.
    assert (2 ^ 53 < 2 ^ 1024) by (apply Z.pow_lt_mono_r; lia).
    lia.
  - cbn [bind]. exists (Qred r). split; [reflexivity|].
    rewrite Qred_correct. exact Hr.
Qed.

(** A balance of at most 53 bits, or one that is a float already, can be
    charged any call of at most [2^53] minutes: the sum is a float. *)
Lemma prepaid_charge_succeeds (balance : Py.number) (m : Z) :
  chargeable balance ->
  0 <= m <= 2 ^ 53 ->
  exists x : Py.float, prepaid_charge balance m = Ok (Py.Flt x).
Proof.
  intros Hbal Hm. unfold prepaid_charge, Py.mul, Py.literal.
  destruct (float_of_int_small m) as (qm & -> & _);
    [rewrite Z.abs_eq; lia|].
  cbn [bind]. unfold Py.add.
  destruct balance as [z|x].
  - destruct (float_of_int_small z Hbal) as (qz & -> & _).
    cbn [bind]. eexists. reflexivity.
  - eexists. reflexivity.
Qed.

Lemma Qlt_as_bool (a b : Q) :
  Qle_bool a b && negb (Qle_bool b a) = true <-> (a < b)%Q.
Proof.
  destruct (Qle_bool b a) eqn:Eba; cbn [negb].
  - rewrite andb_false_r. apply Qle_bool_iff in Eba. split; [discriminate|].
    intros H. exfalso. exact (Qlt_not_le _ _ H Eba).
  - rewrite andb_true_r.
    assert (Hlt : (a < b)%Q).
    { apply Qnot_le_lt. intros H. apply Qle_bool_iff in H. congruence. }
    split; [intros _; exact Hlt|intros _].
    apply Qle_bool_iff. apply Qlt_le_weak. exact Hlt.
Qed.

Lemma py_gt_finite (a : Py.number) (k : Z) :
  Py.is_finite a = true ->
  (Py.gt a (Py.Int k) = true <-> (inject_Z k < amount_of a)%Q).
Proof.
  unfold Py.gt, Py.lt.
  destruct a as [z|[q|neg|]]; cbn [Py.is_finite Py.real amount_of Py.fle];
    try discriminate; intros _; apply Qlt_as_bool.
Qed.

Lemma py_le_finite (a : Py.number) (k : Z) :
  Py.is_finite a = true ->
  (Py.le a (Py.Int k) = true <-> (amount_of a <= inject_Z k)%Q).
Proof.
  unfold Py.le.
  destruct a as [z|[q|neg|]]; cbn [Py.is_finite Py.real amount_of Py.fle];
    try discriminate; intros _; apply Qle_bool_iff.
Qed.

Lemma py_sub_25 (a : Py.number) :
  Py.sub a (Py.Int 25)
  = Ok (match a with
        | Py.Int z => Py.Int (z - 25)
        | Py.Flt x => Py.Flt (Py.fadd x (Py.Finite (-25)))
        end).
Proof.
  destruct a as [z|x]; [reflexivity|].
  unfold Py.sub.
  assert (H25 : Py.float_of_int 25 = Ok (Py.Finite 25))
    by (vm_compute; reflexivity).
  rewrite H25. reflexivity.
Qed.

(** What [new_month] leaves behind, branch by branch. *)
Lemma prepaid_new_month_run (self : PrepaidContract.t) (month year : Z)
      (bill : Bill) :
  new_month month year bill self
  = (Ok tt,
     if Py.gt (PrepaidContract.balance self) (Py.Int (-10))
     then PrepaidContract.mk
            (Contract.mk (start_of self)
               (Some (set_rates
                        (add_fixed_cost
                           (add_fixed_cost bill
                              (amount_of (PrepaidContract.balance self)))
                           25)
                        "PREPAID" PREPAID_MINS_COST)))
            (match PrepaidContract.balance self with
             | Py.Int z => Py.Int (z - 25)
             | Py.Flt x => Py.Flt (Py.fadd x (Py.Finite (-25)))
             end)
     else PrepaidContract.mk
            (Contract.mk (start_of self)
               (Some (set_rates
                        (add_fixed_cost bill
                           (amount_of (PrepaidContract.balance self)))
                        "PREPAID" PREPAID_MINS_COST)))
            (PrepaidContract.balance self)).
Proof.
  destruct self as [[st ob] bal]. run_methods.
  destruct (Py.gt bal (Py.Int (-10))); [|reflexivity].
  rewrite py_sub_25. reflexivity.
Qed.

(** C4 (as amended).  [new_month] adds the balance, whatever its sign, to the
    fixed cost of the bill it installs; exactly when the balance is greater
    than -10 it then replaces the balance by [balance - 25] as Python
    computes it, that is exactly 25 less while the balance is an [int] and
    the double nearest to [balance - 25] once it is a [float], and adds 25
    more to the fixed cost; it sets the prepaid rate.  A contract opened with
    a top-up of 100 has balance -100, its first [new_month] makes no
    recharge, and the fixed cost of a fresh bill becomes -100. *)
Theorem prepaid_new_month_effect
        (self : PrepaidContract.t) (start : datetime.date) (month year : Z)
        (bill : Bill) :
  (Py.is_finite (PrepaidContract.balance self) = true ->
   exists self' : PrepaidContract.t,
     new_month month year bill self = (Ok tt, self')
     /\ start_of self' = start_of self
     /\ if Qlt_le_dec (-10) (amount_of (PrepaidContract.balance self))
        then bill_of self'
             = Some (set_rates
                       (add_fixed_cost
                          (add_fixed_cost bill
                             (amount_of (PrepaidContract.balance self)))
                          25)
                       "PREPAID" (25 # 1000))
             /\ PrepaidContract.balance self'
                = match PrepaidContract.balance self with
                  | Py.Int z => Py.Int (z - 25)
                  | Py.Flt _ =>
                      Py.Flt
                        (Py.nearest
                           (amount_of (PrepaidContract.balance self) - 25))
                  end
        else bill_of self'
             = Some (set_rates
                       (add_fixed_cost bill
                          (amount_of (PrepaidContract.balance self)))
                       "PREPAID" (25 # 1000))
             /\ PrepaidContract.balance self' = PrepaidContract.balance self)
  /\ PrepaidContract.balance (PrepaidContract.__init__ start 100)
     = Py.Int (-100)
  /\ (exists (self' : PrepaidContract.t) (b : Bill),
         new_month month year Bill_init (PrepaidContract.__init__ start 100)
         = (Ok tt, self')
         /\ PrepaidContract.balance self' = Py.Int (-100)
         /\ bill_of self' = Some b
         /\ fixed_cost b == -100
         /\ min_rate b = (25 # 1000)%Q).
Proof.
  split; [|split].
  - intros Hfin. rewrite prepaid_new_month_run.
    eexists. split; [reflexivity|].
    destruct (Qlt_le_dec (-10) (amount_of (PrepaidContract.balance self)))
      as [Hgt|Hle].
    + apply (py_gt_finite _ (-10) Hfin) in Hgt. rewrite Hgt.
      split; [reflexivity|]. split; [reflexivity|].
      destruct self as [[st ob] [z|[q|neg|]]]; try discriminate; reflexivity.
    + assert (Hng : Py.gt (PrepaidContract.balance self) (Py.Int (-10))
                    = false).
      { destruct (Py.gt (PrepaidContract.balance self) (Py.Int (-10)))
          eqn:E; [|reflexivity].
        apply (py_gt_finite _ (-10) Hfin) in E.
        exfalso. exact (Qlt_not_le _ _ E Hle). }
      rewrite Hng. split; [reflexivity|]. split; reflexivity.
  - reflexivity.
  - eexists. eexists. split; [reflexivity|].
    split; [reflexivity|]. split; [reflexivity|].
    split; reflexivity.
Qed.

Lemma prepaid_new_month_effect_witness :
  exists self' : PrepaidContract.t,
    new_month 2 2025 Bill_init
      (PrepaidContract.mk (Contract.__init__ jan15_2025)
         (Py.literal (-995 # 100)))
    = (Ok tt, self')
    /\ PrepaidContract.balance self' = Py.literal (-3495 # 100).
Proof.
  destruct (proj1 (prepaid_new_month_effect
                     (PrepaidContract.mk (Contract.__init__ jan15_2025)
                        (Py.literal (-995 # 100)))
                     jan15_2025 2 2025 Bill_init) eq_refl)
    as (self' & Hrun & _ & Hcase).
  exists self'. split; [exact Hrun|].
  exact (proj2 Hcase).
Defined.

(** C4 (as stated) fails once the balance is a float.  A top-up of 20 and
    calls of 2 and 398 minutes leave the balance at -9.999999999999998; the
    next [new_month] recharges and leaves -35.0, which is not that balance
    less 25. *)
Lemma prepaid_recharge_is_rounded :
  exists (self1 self2 : PrepaidContract.t) (q : Q),
    (new_month 1 2025 Bill_init >> bill_calls [call_of 120; call_of 23880])
      (PrepaidContract.__init__ jan15_2025 20)
    = (Ok tt, self1)
    /\ PrepaidContract.balance self1 = Py.Flt (Py.Finite q)
    /\ (-10 < q)%Q
    /\ new_month 2 2025 Bill_init self1 = (Ok tt, self2)
    /\ PrepaidContract.balance self2 = Py.Flt (Py.Finite (-35))
    /\ ~ q - 25 == -35.
Proof.
  eexists. eexists. eexists.
  split; [vm_compute; reflexivity|].
  split; [reflexivity|].
  split; [vm_compute; reflexivity|].
  split; [vm_compute; reflexivity|].
  split; [reflexivity|].
  vm_compute. discriminate.
Qed.

Lemma prepaid_cancel_run (self : PrepaidContract.t) :
  cancel_contract self
  = (Ok (if Py.le (PrepaidContract.balance self) (Py.Int 0)
         then Py.Flt (Py.Finite 0) else PrepaidContract.balance self),
     self).
Proof.
  destruct self as [[st ob] bal]. run_methods.
  destruct (Py.le bal (Py.Int 0)); reflexivity.
Qed.

(** C5.  [cancel_contract] returns 0 whenever the balance is zero or
    negative and exactly the balance whenever it is positive; the contract is
    left as it was.  The balance is an [int] or a [float]; [Py.real] is its
    value, a rational when it is finite.  A balance that is not a number is
    not below zero and is returned as it is. *)
Theorem prepaid_cancel_contract_amount (self : PrepaidContract.t) :
  (forall q : Q,
      Py.real (PrepaidContract.balance self) = Py.Finite q ->
      (q <= 0)%Q ->
      cancel_contract self = (Ok (Py.Flt (Py.Finite 0)), self))
  /\ (forall q : Q,
         Py.real (PrepaidContract.balance self) = Py.Finite q ->
         (0 < q)%Q ->
         cancel_contract self = (Ok (PrepaidContract.balance self), self))
  /\ (Py.real (PrepaidContract.balance self) = Py.Inf true ->
      cancel_contract self = (Ok (Py.Flt (Py.Finite 0)), self))
  /\ (Py.real (PrepaidContract.balance self) = Py.Inf false ->
      cancel_contract self = (Ok (PrepaidContract.balance self), self))
  /\ (Py.real (PrepaidContract.balance self) = Py.NaN ->
      cancel_contract self = (Ok (PrepaidContract.balance self), self)).
Proof.
  rewrite prepaid_cancel_run. unfold Py.le.
  split; [|split; [|split; [|split]]].
  - intros q -> Hle. cbn [Py.real Py.fle].
    apply Qle_bool_iff in Hle. unfold inject_Z in *. rewrite Hle.
    reflexivity.
  - intros q -> Hgt. cbn [Py.real Py.fle].
    destruct (Qle_bool q (inject_Z 0)) eqn:E; [|reflexivity].
    apply Qle_bool_iff in E. exfalso. exact (Qlt_not_le _ _ Hgt E).
  - intros ->. reflexivity.
  - intros ->. reflexivity.
  - intros ->. reflexivity.
Qed.

Lemma prepaid_cancel_contract_amount_witness :
  cancel_contract (PrepaidContract.__init__ jan15_2025 100)
  = (Ok (Py.Flt (Py.Finite 0)), PrepaidContract.__init__ jan15_2025 100)
  /\ cancel_contract
       (PrepaidContract.mk (Contract.__init__ jan15_2025)
          (Py.literal (5 # 10)))
     = (Ok (Py.literal (5 # 10)),
        PrepaidContract.mk (Contract.__init__ jan15_2025)
          (Py.literal (5 # 10))).
Proof.
  split.
  - apply (proj1 (prepaid_cancel_contract_amount
                    (PrepaidContract.__init__ jan15_2025 100))
             (inject_Z (-100)) eq_refl).
    unfold Qle. cbn. lia.
  - apply (proj1 (proj2 (prepaid_cancel_contract_amount
                           (PrepaidContract.mk (Contract.__init__ jan15_2025)
                              (Py.literal (5 # 10)))))
             (1 # 2)%Q eq_refl).
    unfold Qlt. cbn. lia.
Defined.

End Prepaid.

(** ** Cancellation and absent bills, across the variants *)

Section Variants.

(** C6.  [cancel_contract] clears the start date of a month-to-month
    contract, which runs the method of [Contract]; the methods of
    [TermContract] and [PrepaidContract] leave the start date as it was. *)
Theorem cancel_contract_start_date :
  (forall self : MTMContract.t,
      start_of (snd (cancel_contract self)) = None)
  /\ (forall self : TermContract.t,
         start_of (snd (cancel_contract self)) = start_of self)
  /\ (forall self : PrepaidContract.t,
         start_of (snd (cancel_contract self)) = start_of self)
  /\ (exists (self1 : TermContract.t) (amount : Q),
         new_month 1 2025 Bill_init (TermContract.__init__ jan15_2025 jan15_2027)
         = (Ok tt, self1)
         /\ fst (cancel_contract self1) = Ok amount
         /\ start_of (snd (cancel_contract self1)) = Some jan15_2025).
Proof.
  split; [|split; [|split]].
  - intros [[st ob]]. run_methods. destruct ob; reflexivity.
  - intros [[st ob] e c]. run_methods.
    destruct (datetime.le e c); reflexivity.
  - intros [[st ob] bal]. run_methods.
    destruct (Py.le bal (Py.Int 0)); reflexivity.
  - eexists. eexists. split; [reflexivity|].
    split; reflexivity.
Qed.

(** C9 (as stated) fails for [cancel_contract] of a term or prepaid contract:
    with no bill installed it returns an amount. *)
Lemma cancel_without_bill_returns :
  bill_of (TermContract.__init__ jan15_2025 jan15_2027) = None
  /\ cancel_contract (TermContract.__init__ jan15_2025 jan15_2027)
     = (Ok 280%Q, TermContract.__init__ jan15_2025 jan15_2027)
  /\ bill_of (PrepaidContract.__init__ jan15_2025 100) = None
  /\ cancel_contract (PrepaidContract.__init__ jan15_2025 100)
     = (Ok (Py.Flt (Py.Finite 0)), PrepaidContract.__init__ jan15_2025 100).
Proof.
  split; [reflexivity|]. split; [reflexivity|].
  split; reflexivity.
Qed.

(** C9 (as amended).  On a freshly constructed contract, [bill_call] of every
    variant raises instead of returning.  The error is [AttributeError] from
    the absent bill, unless an [OverflowError] comes first: from the
    conversion to minutes of a term or prepaid call, or from the sum that
    charges a prepaid balance too large for a float, as after a top-up of
    [2^1024]; for a call of at most [2^53] seconds and a top-up of at most 53
    bits it is [AttributeError].
    [cancel_contract] raises [AttributeError] for a month-to-month contract,
    whereas for a term or prepaid contract it never reaches the bill and
    returns its amount. *)
Theorem fresh_contract_without_bill
        (start end_ : datetime.date) (balance : Z) (call : Call) :
  fst (bill_call call (MTMContract.__init__ start)) = Raise AttributeError
  /\ fst (bill_call call (TermContract.__init__ start end_))
     = match call_minutes call with
       | Ok _ => Raise AttributeError
       | Raise e => Raise e
       end
  /\ fst (bill_call call (PrepaidContract.__init__ start balance))
     = match call_minutes call with
       | Ok m =>
           match prepaid_charge (Py.Int (- balance)) m with
           | Ok _ => Raise AttributeError
           | Raise e => Raise e
           end
       | Raise e => Raise e
       end
  /\ (exact_duration call ->
      Z.abs balance <= 2 ^ 53 ->
      fst (bill_call call (PrepaidContract.__init__ start balance))
      = Raise AttributeError)
  /\ fst (bill_call (call_of 61) (PrepaidContract.__init__ start (2 ^ 1024)))
     = Raise OverflowError
  /\ fst (cancel_contract (MTMContract.__init__ start)) = Raise AttributeError
  /\ fst (cancel_contract (TermContract.__init__ start end_))
     = Ok (if datetime.le end_ start then 0%Q else 280%Q)
  /\ fst (cancel_contract (PrepaidContract.__init__ start balance))
     = Ok (if - balance <=? 0 then Py.Flt (Py.Finite 0)
           else Py.Int (- balance)).
Proof.
  assert (Hprepaid :
            fst (bill_call call (PrepaidContract.__init__ start balance))
            = match call_minutes call with
              | Ok m =>
                  match prepaid_charge (Py.Int (- balance)) m with
                  | Ok _ => Raise AttributeError
                  | Raise e => Raise e
                  end
              | Raise e => Raise e
              end).
  { unfold PrepaidContract.__init__, Contract.__init__, prepaid_charge, bind.
    run_methods.
    destruct (call_minutes call) as [m|e]; [|reflexivity].
    destruct (Py.mul (Py.Int m) (Py.literal PREPAID_MINS_COST)) as [c|e];
      [|reflexivity].
    destruct (Py.add (Py.Int (- balance)) c); reflexivity. }
  split; [reflexivity|].
  split; [|split; [|split; [|split; [|split; [|split]]]]].
  - unfold TermContract.__init__, Contract.__init__. run_methods.
    destruct (call_minutes call); reflexivity.
  - exact Hprepaid.
  - intros Hc Hbal. rewrite Hprepaid, (call_minutes_exact call Hc).
    pose proof (ceil60_nonneg _ (proj1 Hc)) as Hm0.
    pose proof (ceil60_spec (duration call)) as Hspec.
    destruct (prepaid_charge_succeeds (Py.Int (- balance))
                (ceil60 (duration call))) as (x & ->).
    + cbn [chargeable]. rewrite Z.abs_opp. exact Hbal.
    + unfold exact_duration, MAX_EXACT_SECONDS in Hc. lia.
    + reflexivity.
  - vm_compute. reflexivity.
  - reflexivity.
  - unfold TermContract.__init__, Contract.__init__. run_methods.
    destruct (datetime.le end_ start); reflexivity.
  - rewrite prepaid_cancel_run. cbn [fst].
    unfold PrepaidContract.__init__. cbn [PrepaidContract.balance].
    unfold Py.le, Py.real, Py.fle, Qle_bool, inject_Z. cbn [Qnum Qden].
    rewrite !Z.mul_1_r. reflexivity.
Qed.

Lemma fresh_contract_without_bill_witness :
  fst (bill_call (call_of 61) (PrepaidContract.__init__ jan15_2025 100))
  = Raise AttributeError.
Proof.
  apply (proj1 (proj2 (proj2 (proj2 (fresh_contract_without_bill
                                       jan15_2025 jan15_2027 100
                                       (call_of 61)))))).
  - unfold exact_duration, MAX_EXACT_SECONDS. cbn. lia.
  - cbn. lia.
Defined.

(** C10.  [cancel_contract] of a term or prepaid contract returns the same
    amount whatever bill the contract holds, an amount fixed by the end and
    current dates (term) or by the balance (prepaid), and leaves the
    contract, its bill included, as it was. *)
Theorem cancel_contract_ignores_bill :
  (forall (self : TermContract.t) (ob : option Bill),
      cancel_contract (with_bill ob self)
      = (Ok (if datetime.le (TermContract.end_ self)
                            (TermContract.current self)
             then 0%Q else 280%Q),
         with_bill ob self)
      /\ bill_of (snd (cancel_contract (with_bill ob self))) = ob)
  /\ (forall (self : PrepaidContract.t) (ob : option Bill),
         cancel_contract (with_bill ob self)
         = (Ok (if Py.le (PrepaidContract.balance self) (Py.Int 0)
                then Py.Flt (Py.Finite 0) else PrepaidContract.balance self),
            with_bill ob self)
         /\ bill_of (snd (cancel_contract (with_bill ob self))) = ob).
Proof.
  split.
  - intros [[st ob0] e c] ob. run_methods.
    destruct (datetime.le e c); split; reflexivity.
  - intros self ob. rewrite prepaid_cancel_run.
    destruct self as [[st ob0] bal]. split; reflexivity.
Qed.

End Variants.

(** ** Call history *)

Section History.

Lemma key_eqb_eq (a b : Z * Z) : key_eqb a b = true <-> a = b.
Proof.
  destruct a as [a1 a2], b as [b1 b2]. unfold key_eqb. cbn [fst snd].
  rewrite andb_true_iff, !Z.eqb_eq. split.
  - intros [-> ->]. reflexivity.
  - intros H. inversion H. split; reflexivity.
Qed.

Lemma key_eqb_refl (a : Z * Z) : key_eqb a a = true.
Proof. apply key_eqb_eq. reflexivity. Qed.

Lemma key_eqb_trans_false (a b c : Z * Z) :
  key_eqb a b = true -> key_eqb a c = key_eqb b c.
Proof. intros H. apply key_eqb_eq in H. subst. reflexivity. Qed.

Lemma lookup_setitem (d : calls_dict) (k k' : Z * Z) (v : list TimedCall) :
  dict.lookup key_eqb (dict.setitem key_eqb d k v) k'
  = if key_eqb k k' then Some v else dict.lookup key_eqb d k'.
Proof.
  induction d as [|[k0 v0] d IH]; cbn [dict.setitem dict.lookup].
  - reflexivity.
  - destruct (key_eqb k0 k) eqn:E0; cbn [dict.lookup].
    + rewrite (key_eqb_trans_false _ _ k' E0).
      destruct (key_eqb k k'); reflexivity.
    + destruct (key_eqb k0 k') eqn:E1; [|exact IH].
      destruct (key_eqb k k') eqn:E2; [|reflexivity].
      apply key_eqb_eq in E1, E2. subst. rewrite key_eqb_refl in E0.
      discriminate.
Qed.

Lemma lookup_update (d : calls_dict) (k k' : Z * Z)
      (f : list TimedCall -> list TimedCall) :
  dict.lookup key_eqb (dict.update key_eqb d k f) k'
  = if key_eqb k k' then option_map f (dict.lookup key_eqb d k')
    else dict.lookup key_eqb d k'.
Proof.
  induction d as [|[k0 v0] d IH]; cbn [dict.update dict.lookup].
  - destruct (key_eqb k k'); reflexivity.
  - destruct (key_eqb k0 k) eqn:E0; cbn [dict.lookup].
    + rewrite <- (key_eqb_trans_false _ _ k' E0).
      destruct (key_eqb k0 k'); reflexivity.
    + destruct (key_eqb k0 k') eqn:E1; [|exact IH].
      destruct (key_eqb k k') eqn:E2; [|reflexivity].
      apply key_eqb_eq in E1, E2. subst. rewrite key_eqb_refl in E0.
      discriminate.
Qed.

Lemma month_of_lookup (d : calls_dict) (key : Z * Z) :
  CallHistory.month_of d key
  = match dict.lookup key_eqb d key with
    | Some calls => calls
    | None => []
    end.
Proof.
  unfold CallHistory.month_of, dict.contains.
  destruct (dict.lookup key_eqb d key); reflexivity.
Qed.

Lemma month_of_file_call (d : calls_dict) (call : TimedCall) (key : Z * Z) :
  CallHistory.month_of (file_call d call) key
  = CallHistory.month_of d key ++ filter (in_month key) [call].
Proof.
  rewrite !month_of_lookup. unfold file_call, dict.contains, in_month.
  cbn [filter].
  destruct (dict.lookup key_eqb d (get_bill_date call)) as [l|] eqn:E.
  - rewrite lookup_update.
    destruct (key_eqb (get_bill_date call) key) eqn:Ek.
    + apply key_eqb_eq in Ek. subst key. rewrite E. reflexivity.
    + rewrite app_nil_r. reflexivity.
  - rewrite lookup_setitem.
    destruct (key_eqb (get_bill_date call) key) eqn:Ek.
    + apply key_eqb_eq in Ek. subst key. rewrite E. reflexivity.
    + rewrite app_nil_r. reflexivity.
Qed.

Lemma register_outgoing_files (h : CallHistory.t) (call : TimedCall) :
  CallHistory.register_outgoing_call h call
  = CallHistory.mk (file_call (CallHistory.outgoing_calls h) call)
                   (CallHistory.incoming_calls h).
Proof.
  unfold CallHistory.register_outgoing_call, file_call, get_bill_date.
  destruct (dict.contains key_eqb (CallHistory.outgoing_calls h) _);
    reflexivity.
Qed.

Lemma register_incoming_files (h : CallHistory.t) (call : TimedCall) :
  CallHistory.register_incoming_call h call
  = CallHistory.mk (CallHistory.outgoing_calls h)
                   (file_call (CallHistory.incoming_calls h) call).
Proof.
  unfold CallHistory.register_incoming_call, file_call, get_bill_date.
  destruct (dict.contains key_eqb (CallHistory.incoming_calls h) _);
    reflexivity.
Qed.

Lemma monthly_history_after (rs : list registration) :
  forall (h : CallHistory.t) (m y : Z),
    CallHistory.get_monthly_history (fold_left register rs h) (Some m) (Some y)
    = (fst (CallHistory.get_monthly_history h (Some m) (Some y))
         ++ filter (in_month (m, y)) (outgoing_of rs),
       snd (CallHistory.get_monthly_history h (Some m) (Some y))
         ++ filter (in_month (m, y)) (incoming_of rs)).
Proof.
  induction rs as [|r rs IH]; intros h m y.
  - cbn. rewrite !app_nil_r. reflexivity.
  - cbn [fold_left]. rewrite IH.
    unfold outgoing_of, incoming_of. cbn [flat_map].
    rewrite !filter_app, !app_assoc.
    destruct r as [c|c]; cbn [register];
      [rewrite register_outgoing_files|rewrite register_incoming_files];
      cbn [CallHistory.get_monthly_history CallHistory.outgoing_calls
           CallHistory.incoming_calls fst snd];
      rewrite month_of_file_call; cbn [filter app];
      rewrite ?app_nil_r; reflexivity.
Qed.

(** X10.  After any sequence of registrations on an empty history,
    [get_monthly_history(month, year)] returns exactly the outgoing calls and
    the incoming calls whose bill date is that month, each list in the order
    of registration; a month without calls gives two empty lists. *)
Theorem monthly_history_is_the_month
        (rs : list registration) (m y : Z) :
  CallHistory.get_monthly_history
    (fold_left register rs CallHistory.__init__) (Some m) (Some y)
  = (filter (in_month (m, y)) (outgoing_of rs),
     filter (in_month (m, y)) (incoming_of rs)).
Proof.
  rewrite monthly_history_after. reflexivity.
Qed.

Lemma keys_update (d : calls_dict) (k : Z * Z)
      (f : list TimedCall -> list TimedCall) :
  dict.keys (dict.update key_eqb d k f) = dict.keys d.
Proof.
  unfold dict.keys.
  induction d as [|[k0 v0] d IH]; cbn [dict.update map]; [reflexivity|].
  destruct (key_eqb k0 k); cbn [map fst]; [reflexivity|].
  rewrite IH. reflexivity.
Qed.

Lemma lookup_none_not_key (d : calls_dict) (k : Z * Z) :
  dict.lookup key_eqb d k = None -> ~ In k (dict.keys d).
Proof.
  unfold dict.keys.
  induction d as [|[k0 v0] d IH]; cbn [dict.lookup map fst In]; [tauto|].
  destruct (key_eqb k0 k) eqn:E; [discriminate|].
  intros H [Heq|Hin]; [|exact (IH H Hin)].
  subst. rewrite key_eqb_refl in E. discriminate.
Qed.

Lemma setitem_new (d : calls_dict) (k : Z * Z) (v : list TimedCall) :
  dict.lookup key_eqb d k = None ->
  dict.setitem key_eqb d k v = d ++ [(k, v)].
Proof.
  induction d as [|[k0 v0] d IH]; cbn [dict.lookup dict.setitem app];
    [reflexivity|].
  destruct (key_eqb k0 k); [discriminate|].
  intros H. rewrite (IH H). reflexivity.
Qed.

Lemma update_values_perm (d : calls_dict) (k : Z * Z) (call : TimedCall) :
  dict.lookup key_eqb d k <> None ->
  Permutation
    (List.concat
       (dict.values (dict.update key_eqb d k (fun calls => calls ++ [call]))))
    (List.concat (dict.values d) ++ [call]).
Proof.
  unfold dict.values.
  induction d as [|[k0 v0] d IH];
    cbn [dict.lookup dict.update map snd List.concat]; [congruence|].
  destruct (key_eqb k0 k); cbn [map snd List.concat]; intros H.
  - rewrite <- !app_assoc. apply Permutation_app_head.
    apply Permutation_app_comm.
  - rewrite <- app_assoc. apply Permutation_app_head. exact (IH H).
Qed.

Lemma file_call_values_perm (d : calls_dict) (call : TimedCall) :
  Permutation (List.concat (dict.values (file_call d call)))
              (List.concat (dict.values d) ++ [call]).
Proof.
  unfold file_call, dict.contains.
  destruct (dict.lookup key_eqb d (get_bill_date call)) as [l|] eqn:E.
  - apply update_values_perm. congruence.
  - rewrite (setitem_new _ _ _ E). unfold dict.values.
    rewrite map_app, concat_app. cbn [map snd List.concat app].
    reflexivity.
Qed.

Lemma whole_history_after (rs : list registration) :
  forall h : CallHistory.t,
    Permutation
      (List.concat
         (dict.values (CallHistory.outgoing_calls (fold_left register rs h))))
      (List.concat (dict.values (CallHistory.outgoing_calls h))
         ++ outgoing_of rs)
    /\ Permutation
         (List.concat
            (dict.values
               (CallHistory.incoming_calls (fold_left register rs h))))
         (List.concat (dict.values (CallHistory.incoming_calls h))
            ++ incoming_of rs).
Proof.
  induction rs as [|r rs IH]; intros h.
  - cbn. rewrite !app_nil_r. split; reflexivity.
  - cbn [fold_left]. unfold outgoing_of, incoming_of in *. cbn [flat_map].
    destruct r as [c|c]; cbn [register];
      [rewrite register_outgoing_files|rewrite register_incoming_files];
      match goal with
      | |- context [fold_left register rs ?h'] =>
          destruct (IH h') as [Ho Hi]
      end;
      cbn [CallHistory.outgoing_calls CallHistory.incoming_calls] in Ho, Hi;
      split.
    + rewrite Ho, file_call_values_perm, <- app_assoc. reflexivity.
    + exact Hi.
    + exact Ho.
    + rewrite Hi, file_call_values_perm, <- app_assoc. reflexivity.
Qed.

(** X11.  Asked without a month or without a year, [get_monthly_history]
    returns every registered call: the outgoing list is a rearrangement of
    all outgoing calls and the incoming list of all incoming calls, none
    lost and none repeated. *)
Theorem whole_history_is_every_call
        (rs : list registration) (month year : option Z) :
  month = None \/ year = None ->
  Permutation
    (fst (CallHistory.get_monthly_history
            (fold_left register rs CallHistory.__init__) month year))
    (outgoing_of rs)
  /\ Permutation
       (snd (CallHistory.get_monthly_history
               (fold_left register rs CallHistory.__init__) month year))
       (incoming_of rs).
Proof.
  intros Hnone.
  destruct (whole_history_after rs CallHistory.__init__) as [Ho Hi].
  cbn [CallHistory.__init__ CallHistory.outgoing_calls
       CallHistory.incoming_calls dict.values map List.concat app] in Ho, Hi.
  assert (Hall : CallHistory.get_monthly_history
                   (fold_left register rs CallHistory.__init__) month year
                 = (List.concat
                      (dict.values
                         (CallHistory.outgoing_calls
                            (fold_left register rs CallHistory.__init__))),
                    List.concat
                      (dict.values
                         (CallHistory.incoming_calls
                            (fold_left register rs CallHistory.__init__))))).
  { unfold CallHistory.get_monthly_history.
    destruct Hnone as [-> | ->]; [reflexivity|].
    destruct month; reflexivity. }
  rewrite Hall. cbn [fst snd]. split; assumption.
Qed.

Lemma whole_history_is_every_call_witness :
  Permutation
    (fst (CallHistory.get_monthly_history
            (fold_left register
               [Outgoing (mkTimedCall (call_of 61) jan15_2025);
                Outgoing (mkTimedCall (call_of 30) jan15_2027);
                Outgoing (mkTimedCall (call_of 90) jan15_2025)]
               CallHistory.__init__)
            None None))
    [mkTimedCall (call_of 61) jan15_2025;
     mkTimedCall (call_of 30) jan15_2027;
     mkTimedCall (call_of 90) jan15_2025].
Proof.
  exact (proj1 (whole_history_is_every_call
                  [Outgoing (mkTimedCall (call_of 61) jan15_2025);
                   Outgoing (mkTimedCall (call_of 30) jan15_2027);
                   Outgoing (mkTimedCall (call_of 90) jan15_2025)]
                  None None (or_introl eq_refl))).
Defined.

Lemma file_call_well_keyed (d : calls_dict) (call : TimedCall) :
  well_keyed d -> well_keyed (file_call d call).
Proof.
  intros [Hnd Hall]. unfold file_call, dict.contains.
  destruct (dict.lookup key_eqb d (get_bill_date call)) as [l|] eqn:E.
  - split; [rewrite keys_update; exact Hnd|].
    clear Hnd E. induction d as [|[k0 v0] d IH]; cbn [dict.update];
      [constructor|].
    inversion Hall as [|? ? [Hne Hk] Hrest]; subst. cbn [fst snd] in *.
    destruct (key_eqb k0 (get_bill_date call)) eqn:Ek.
    + constructor; [|exact Hrest]. cbn [fst snd]. split.
      * destruct v0; discriminate.
      * apply Forall_app. split; [exact Hk|].
        constructor; [|constructor].
        apply key_eqb_eq in Ek. congruence.
    + constructor; [split; assumption|]. exact (IH Hrest).
  - rewrite (setitem_new _ _ _ E). split.
    + unfold dict.keys in *. rewrite map_app. cbn [map fst].
      apply NoDup_app_remove_l with (l := []). cbn [app].
      apply Permutation_NoDup with (l := get_bill_date call :: map fst d).
      * apply Permutation_cons_append.
      * constructor; [exact (lookup_none_not_key _ _ E)|exact Hnd].
    + apply Forall_app. split; [exact Hall|].
      constructor; [|constructor]. cbn [fst snd].
      split; [discriminate|]. constructor; [reflexivity|constructor].
Qed.

(** X12.  Whatever is registered, each dictionary of the history has one
    entry per month, no entry with an empty list, and every call filed under
    its own bill date. *)
Theorem history_stays_well_keyed (rs : list registration) :
  well_keyed (CallHistory.outgoing_calls
                (fold_left register rs CallHistory.__init__))
  /\ well_keyed (CallHistory.incoming_calls
                   (fold_left register rs CallHistory.__init__)).
Proof.
  assert (Hgen : forall h : CallHistory.t,
             well_keyed (CallHistory.outgoing_calls h) ->
             well_keyed (CallHistory.incoming_calls h) ->
             well_keyed (CallHistory.outgoing_calls (fold_left register rs h))
             /\ well_keyed
                  (CallHistory.incoming_calls (fold_left register rs h))).
  { induction rs as [|r rs IH]; intros h Ho Hi; [split; assumption|].
    cbn [fold_left]. apply IH;
      destruct r as [c|c]; cbn [register];
      rewrite ?register_outgoing_files, ?register_incoming_files;
      cbn [CallHistory.outgoing_calls CallHistory.incoming_calls];
      try assumption; apply file_call_well_keyed; assumption. }
  apply Hgen; split; constructor.
Qed.

End History.

(** ** Filters *)

Section Filters.

Variable int_of : string -> option Z.
Variable Customer : Type.

Lemma filter_twice {A : Type} (f : A -> bool) (l : list A) :
  filter f (filter f l) = filter f l.
Proof.
  induction l as [|x l IH]; cbn [filter]; [reflexivity|].
  destruct (f x) eqn:E; cbn [filter]; [rewrite E, IH|]; auto.
Qed.

Lemma filter_none {A : Type} (f g : A -> bool) (l : list A) :
  (forall x, f x = true -> g x = false) -> filter g (filter f l) = [].
Proof.
  intros H. induction l as [|x l IH]; cbn [filter]; [reflexivity|].
  destruct (f x) eqn:E; cbn [filter]; [rewrite (H x E)|]; exact IH.
Qed.

(** X13.  [DurationFilter.apply] returns [data] itself when the filter string
    is not a valid one: when what follows its first character is not an
    integer, when it is shorter than 2 or longer than 4 characters, or when
    it starts with neither G nor L. *)
Theorem duration_filter_invalid_string
        (customers : list Customer) (data : list Call) (s : string) :
  int_of (str_tail s) = None
  \/ (String.length s < 2)%nat
  \/ (4 < String.length s)%nat
  \/ ((forall rest, s <> String "G" rest)
      /\ (forall rest, s <> String "L" rest)) ->
  DurationFilter.apply int_of customers data s = data.
Proof.
  intros H. unfold DurationFilter.apply.
  destruct (int_of (str_tail s)) as [n|] eqn:En; [|reflexivity].
  destruct ((4 <? Z.of_nat (String.length s))
            || (Z.of_nat (String.length s) <? 2)) eqn:El; [reflexivity|].
  apply orb_false_iff in El. destruct El as [E4 E2].
  apply Z.ltb_ge in E4, E2.
  destruct s as [|c0 rest]; [reflexivity|].
  destruct (Ascii.eqb c0 "G") eqn:EG.
  - apply Ascii.eqb_eq in EG. subst c0.
    destruct H as [H|[H|[H|[H _]]]];
      [congruence|lia|lia|exact (False_rect _ (H rest eq_refl))].
  - destruct (Ascii.eqb c0 "L") eqn:EL; [|reflexivity].
    apply Ascii.eqb_eq in EL. subst c0.
    destruct H as [H|[H|[H|[_ H]]]];
      [congruence|lia|lia|exact (False_rect _ (H rest eq_refl))].
Qed.

Lemma duration_filter_run
      (customers : list Customer) (data : list Call) (rest : string)
      (n : Z) (c0 : ascii) :
  int_of rest = Some n ->
  (1 <= String.length rest <= 3)%nat ->
  c0 = "G"%char \/ c0 = "L"%char ->
  DurationFilter.apply int_of customers data (String c0 rest)
  = filter (fun dat => if Ascii.eqb c0 "G" then n <? duration dat
                       else duration dat <? n) data.
Proof.
  intros Hn Hlen Hc. unfold DurationFilter.apply.
  cbn [str_tail String.length]. rewrite Hn.
  assert (El : (4 <? Z.of_nat (S (String.length rest)))
               || (Z.of_nat (S (String.length rest)) <? 2) = false).
  { apply orb_false_iff. split; apply Z.ltb_ge; lia. }
  rewrite El. destruct Hc as [-> | ->]; reflexivity.
Qed.

(** X14.  For a valid filter string, G or L followed by one to three
    characters that [int] reads as [n], [DurationFilter.apply] returns the
    calls of [data] whose duration is greater than [n] (for G) or less than
    [n] (for L), in the order of [data]. *)
Theorem duration_filter_valid_string
        (customers : list Customer) (data : list Call) (rest : string)
        (n : Z) :
  int_of rest = Some n ->
  (1 <= String.length rest <= 3)%nat ->
  DurationFilter.apply int_of customers data (String "G" rest)
  = filter (fun dat => n <? duration dat) data
  /\ DurationFilter.apply int_of customers data (String "L" rest)
     = filter (fun dat => duration dat <? n) data.
Proof.
  intros Hn Hlen. split.
  - exact (duration_filter_run customers data rest n "G" Hn Hlen
             (or_introl eq_refl)).
  - exact (duration_filter_run customers data rest n "L" Hn Hlen
             (or_intror eq_refl)).
Qed.

(** X15.  Whatever the filter string, [DurationFilter.apply] only removes
    calls: its result is [data] with some calls left out, the others in
    their order; and applying the same filter to its own result changes
    nothing. *)
Theorem duration_filter_only_removes
        (customers : list Customer) (data : list Call) (s : string) :
  (exists keep : Call -> bool,
      DurationFilter.apply int_of customers data s = filter keep data)
  /\ DurationFilter.apply int_of customers
       (DurationFilter.apply int_of customers data s) s
     = DurationFilter.apply int_of customers data s.
Proof.
  assert (Hid : filter (fun _ : Call => true) data = data).
  { induction data as [|x l IH]; cbn [filter]; [|rewrite IH]; reflexivity. }
  unfold DurationFilter.apply.
  destruct (int_of (str_tail s)) as [n|];
    [|split; [exists (fun _ => true); auto|reflexivity]].
  destruct ((4 <? Z.of_nat (String.length s))
            || (Z.of_nat (String.length s) <? 2));
    [split; [exists (fun _ => true); auto|reflexivity]|].
  destruct s as [|c0 rest];
    [split; [exists (fun _ => true); auto|reflexivity]|].
  destruct (negb (Ascii.eqb c0 "G") && negb (Ascii.eqb c0 "L"));
    [split; [exists (fun _ => true); auto|reflexivity]|].
  split; [eexists; reflexivity|apply filter_twice].
Qed.

(** X16.  For one threshold [n], read from one to three characters, the G
    filter and the L filter select disjoint calls: filtering the result of
    one by the other leaves nothing, and [data] is made up of the G result,
    the L result and the calls lasting exactly [n] seconds, which neither
    filter returns. *)
Theorem duration_filter_greater_and_less
        (customers : list Customer) (data : list Call) (rest : string)
        (n : Z) :
  int_of rest = Some n ->
  (1 <= String.length rest <= 3)%nat ->
  DurationFilter.apply int_of customers
    (DurationFilter.apply int_of customers data (String "G" rest))
    (String "L" rest)
  = []
  /\ Permutation data
       (DurationFilter.apply int_of customers data (String "G" rest)
        ++ DurationFilter.apply int_of customers data (String "L" rest)
        ++ filter (fun dat => duration dat =? n) data).
Proof.
  intros Hn Hlen.
  pose proof (duration_filter_run customers data rest n "G" Hn Hlen
                (or_introl eq_refl)) as HG.
  pose proof (duration_filter_run customers data rest n "L" Hn Hlen
                (or_intror eq_refl)) as HL.
  pose proof (duration_filter_run customers
                (filter (fun dat => n <? duration dat) data) rest n "L"
                Hn Hlen (or_intror eq_refl)) as HGL.
  cbn [Ascii.eqb Bool.eqb] in HG, HL, HGL.
  rewrite HG, HL, HGL. clear HG HL HGL. split.
  - apply filter_none. intros x Hx. apply Z.ltb_lt in Hx.
    apply Z.ltb_ge. lia.
  - induction data as [|x l IH]; cbn [filter]; [reflexivity|].
    destruct (n <? duration x) eqn:E1.
    + apply Z.ltb_lt in E1.
      assert (E2 : (duration x <? n) = false) by (apply Z.ltb_ge; lia).
      assert (E3 : (duration x =? n) = false) by (apply Z.eqb_neq; lia).
      rewrite E2, E3. cbn [app]. apply perm_skip. exact IH.
    + apply Z.ltb_ge in E1. destruct (duration x <? n) eqn:E2.
      * apply Z.ltb_lt in E2.
        assert (E3 : (duration x =? n) = false) by (apply Z.eqb_neq; lia).
        rewrite E3. cbn [app]. apply Permutation_cons_app. exact IH.
      * apply Z.ltb_ge in E2.
        assert (E3 : (duration x =? n) = true) by (apply Z.eqb_eq; lia).
        rewrite E3. rewrite app_assoc. apply Permutation_cons_app.
        rewrite <- app_assoc. exact IH.
Qed.

Lemma Call_eqb_refl (c : Call) : Call_eqb c c = true.
Proof.
  unfold Call_eqb. rewrite !String.eqb_refl, Z.eqb_refl. reflexivity.
Qed.

Lemma call_in_member (c : Call) (l : list Call) :
  In c l -> call_in c l = true.
Proof.
  intros H. unfold call_in. apply existsb_exists.
  exists c. split; [exact H|apply Call_eqb_refl].
Qed.

(** X17.  [CustomerFilter.apply] returns [data] for every filter string and
    every list of customers: the loop that collects the unique calls keeps a
    call only if it is not in the list it is taken from, so it keeps none,
    and the empty result is replaced by [data]. *)
Theorem customer_filter_returns_data
        (get_id : Customer -> Z)
        (get_history : Customer -> list Call * list Call)
        (customers : list Customer) (data : list Call) (s : string) :
  CustomerFilter.apply int_of get_id get_history customers data s = data.
Proof.
  unfold CustomerFilter.apply.
  destruct (int_of s) as [n|]; [|reflexivity].
  set (filter_calls := flat_map _ customers).
  assert (Hnone : filter (fun call => negb (call_in call filter_calls))
                         filter_calls = []).
  { assert (Hsub : forall l, incl l filter_calls ->
                filter (fun call => negb (call_in call filter_calls)) l = []).
    { induction l as [|x l IH]; intros Hincl; cbn [filter]; [reflexivity|].
      rewrite (call_in_member x filter_calls (Hincl x (or_introl eq_refl))).
      cbn [negb]. apply IH. intros y Hy. apply Hincl. right. exact Hy. }
    apply Hsub. apply incl_refl. }
  rewrite Hnone. reflexivity.
Qed.

End Filters.

Lemma duration_filter_invalid_string_witness :
  DurationFilter.apply decimal_int (@nil unit)
    [call_of 30; call_of 61; call_of 90] "G1e3"
  = [call_of 30; call_of 61; call_of 90]
  /\ DurationFilter.apply decimal_int (@nil unit)
       [call_of 30; call_of 61; call_of 90] "G1000"
     = [call_of 30; call_of 61; call_of 90].
Proof.
  split.
  - apply (duration_filter_invalid_string decimal_int unit).
    left. reflexivity.
  - apply (duration_filter_invalid_string decimal_int unit).
    right. right. left. cbn. lia.
Defined.

Lemma duration_filter_valid_string_witness :
  DurationFilter.apply decimal_int (@nil unit)
    [call_of 30; call_of 61; call_of 90; call_of 60] "G60"
  = [call_of 61; call_of 90].
Proof.
  apply (proj1 (duration_filter_valid_string decimal_int unit []
                  [call_of 30; call_of 61; call_of 90; call_of 60]
                  "60" 60 eq_refl
                  (conj (le_S _ _ (le_n 1)) (le_S _ _ (le_n 2))))).
Defined.

Lemma duration_filter_greater_and_less_witness :
  DurationFilter.apply decimal_int (@nil unit)
    (DurationFilter.apply decimal_int (@nil unit)
       [call_of 30; call_of 61; call_of 90; call_of 60] "G60")
    "L60"
  = [].
Proof.
  apply (proj1 (duration_filter_greater_and_less decimal_int unit []
                  [call_of 30; call_of 61; call_of 90; call_of 60]
                  "60" 60 eq_refl
                  (conj (le_S _ _ (le_n 1)) (le_S _ _ (le_n 2))))).
Defined.

(** ** Term contracts over a month *)

Section TermMonth.

Lemma term_with_bill_twice (self : TermContract.t) (o1 o2 : option Bill) :
  with_bill o2 (with_bill o1 self) = with_bill o2 self.
Proof. reflexivity. Qed.

Lemma term_bill_of_with_bill (self : TermContract.t) (o : option Bill) :
  bill_of (with_bill o self) = o.
Proof. reflexivity. Qed.

Lemma bill_calls_app {S : Type} `{ContractClass S} (xs ys : list Call)
      (self : S) :
  bill_calls (xs ++ ys) self
  = match bill_calls xs self with
    | (Ok _, self') => bill_calls ys self'
    | (Raise e, self') => (Raise e, self')
    end.
Proof.
  unfold bill_calls. rewrite for_each_app. unfold mbind.
  destruct (for_each bill_call xs self) as [[[]|e] s1]; reflexivity.
Qed.

Lemma bill_calls_cons {S : Type} `{ContractClass S} (x : Call)
      (xs : list Call) (self : S) :
  bill_calls (x :: xs) self
  = match bill_call x self with
    | (Ok _, self') => bill_calls xs self'
    | (Raise e, self') => (Raise e, self')
    end.
Proof.
  unfold bill_calls. cbn [for_each]. unfold mbind.
  destruct (bill_call x self) as [[[]|e] s1]; reflexivity.
Qed.

Lemma term_bill_call_keeps_pool_state (self : TermContract.t) (b : Bill)
      (call : Call) :
  bill_of self = Some b ->
  exact_duration call ->
  pool_state b ->
  exists b' : Bill,
    bill_call call self = (Ok tt, with_bill (Some b') self)
    /\ pool_state b'.
Proof.
  intros Hb Hc Hpool.
  pose proof (call_minutes_exact call Hc) as Hm.
  pose proof (ceil60_nonneg _ (proj1 Hc)) as Hm0.
  set (m := ceil60 (duration call)) in *. clearbody m.
  unfold pool_state, TERM_MINS in *.
  destruct (Z_lt_le_dec (free_min b + m) 100) as [Hlt|Hge].
  - eexists. split.
    + apply term_bill_call_absorb; [eassumption|eassumption|exact Hlt].
    + left. cbn [set_free_min free_min]. lia.
  - eexists. split.
    + apply term_bill_call_flush; try eassumption; unfold TERM_MINS; lia.
    + right. reflexivity.
Qed.

(** X1.  From [new_month] on, and through any calls of at most [2^53]
    seconds, the free-minute counter of a term bill is either below 100 or
    exactly 200; it is never exactly 100, so [bill_call] never takes its last
    branch, the one for a pool used up by an earlier call. *)
Theorem term_pool_never_exactly_full
        (self self1 : TermContract.t) (month year : Z) (bill : Bill)
        (calls : list Call) :
  new_month month year bill self = (Ok tt, self1) ->
  Forall exact_duration calls ->
  exists (self2 : TermContract.t) (b : Bill),
    bill_calls calls self1 = (Ok tt, self2)
    /\ bill_of self2 = Some b
    /\ (0 <= free_min b < 100 \/ free_min b = 200)
    /\ free_min b <> TERM_MINS.
Proof.
  intros Hnm Hcalls.
  destruct (term_new_month_ok _ _ _ _ _ Hnm) as (b1 & -> & Hfree & _).
  assert (Hgen : forall (s : TermContract.t) (b : Bill),
             bill_of s = Some b -> pool_state b ->
             exists (s2 : TermContract.t) (b2 : Bill),
               bill_calls calls s = (Ok tt, s2)
               /\ bill_of s2 = Some b2 /\ pool_state b2).
  { induction Hcalls as [|c cs Hc _ IH]; intros s b Hb Hpool.
    - exists s, b. split; [reflexivity|]. split; assumption.
    - destruct (term_bill_call_keeps_pool_state s b c Hb Hc Hpool)
        as (b' & Hstep & Hpool').
      destruct (IH _ b' (term_bill_of_with_bill s (Some b')) Hpool')
        as (s2 & b2 & Hrun & Hb2 & Hpool2).
      exists s2, b2. rewrite bill_calls_cons, Hstep.
      split; [exact Hrun|]. split; assumption. }
  assert (Hb1 : bill_of (TermContract.set_current
                           (datetime.mkDate year month 1)
                           (with_bill (Some b1) self)) = Some b1)
    by reflexivity.
  destruct (Hgen _ b1 Hb1) as (s2 & b2 & Hrun & Hb2 & Hpool2).
  - left. unfold TERM_MINS. lia.
  - exists s2, b2. split; [exact Hrun|]. split; [exact Hb2|].
    unfold pool_state, TERM_MINS in *. split; lia.
Qed.

Lemma term_pool_never_exactly_full_witness :
  exists (self2 : TermContract.t) (b : Bill),
    bill_calls [call_of 3600; call_of 3600; call_of 60]
      (snd (new_month 1 2025 Bill_init
              (TermContract.__init__ jan15_2025 jan15_2027)))
    = (Ok tt, self2)
    /\ bill_of self2 = Some b
    /\ (0 <= free_min b < 100 \/ free_min b = 200)
    /\ free_min b <> TERM_MINS.
Proof.
  apply (term_pool_never_exactly_full
           (TermContract.__init__ jan15_2025 jan15_2027) _ 1 2025 Bill_init
           [call_of 3600; call_of 3600; call_of 60] eq_refl).
  exact_calls.
Defined.

Lemma term_bill_calls_after_flush (calls : list Call) :
  Forall exact_duration calls ->
  forall (self : TermContract.t) (b : Bill),
    bill_of self = Some b ->
    free_min b = TERM_MINS + TERM_MINS ->
    bill_calls calls self
    = (Ok tt,
       with_bill
         (Some (mkBill (billed_min b + minutes_per_call calls
                        + TERM_MINS * Z.of_nat (List.length calls))
                       (free_min b) (min_rate b) (fixed_cost b) (plan_tag b)))
         self).
Proof.
  induction 1 as [|c cs Hc Hcs IH]; intros self b Hb Hfull.
  - change (minutes_per_call []) with 0. cbn [List.length Z.of_nat].
    rewrite Z.mul_0_r, !Z.add_0_r.
    replace (mkBill (billed_min b) (free_min b) (min_rate b) (fixed_cost b)
                    (plan_tag b)) with b by (destruct b; reflexivity).
    rewrite (term_with_bill_same _ _ Hb). reflexivity.
  - change (minutes_per_call (c :: cs))
      with (ceil60 (duration c) + minutes_per_call cs).
    pose proof (ceil60_nonneg _ (proj1 Hc)) as Hm0.
    rewrite bill_calls_cons.
    rewrite (term_bill_call_flush self b c _ Hb (call_minutes_exact _ Hc))
      by (unfold TERM_MINS in *; lia).
    rewrite (IH _ _ (term_bill_of_with_bill _ _))
      by (cbn [free_min]; reflexivity).
    rewrite term_with_bill_twice.
    cbn [billed_min free_min min_rate fixed_cost plan_tag].
    do 3 f_equal. f_equal; [|symmetry; exact Hfull].
    rewrite Hfull. cbn [List.length]. rewrite Nat2Z.inj_succ.
    unfold TERM_MINS. lia.
Qed.

(** X2.  A month of a term contract in closed form.  When the calls before
    some call [c] stay below 100 minutes and [c] reaches 100 or more, the
    bill ends with the minutes beyond 100 up to and including [c], plus, for
    every later call, its minutes and 100 more; the free-minute counter ends
    at 200. *)
Theorem term_month_billed_minutes
        (self : TermContract.t) (b : Bill) (pre post : list Call) (c : Call) :
  bill_of self = Some b ->
  free_min b = 0 ->
  Forall exact_duration (pre ++ c :: post) ->
  minutes_per_call pre < 100 <= minutes_per_call pre + ceil60 (duration c) ->
  bill_calls (pre ++ c :: post) self
  = (Ok tt,
     with_bill
       (Some (mkBill (billed_min b
                      + (minutes_per_call pre + ceil60 (duration c) - 100)
                      + (minutes_per_call post
                         + 100 * Z.of_nat (List.length post)))
                     200 (min_rate b) (fixed_cost b) (plan_tag b)))
       self).
Proof.
  intros Hb Hfree Hall [Hlo Hhi].
  apply Forall_app in Hall. destruct Hall as [Hpre Hrest].
  inversion Hrest as [|? ? Hc Hpost]; subst.
  rewrite bill_calls_app.
  rewrite (term_bill_calls_below_capacity pre Hpre self b Hb)
    by (unfold TERM_MINS; lia).
  rewrite bill_calls_cons.
  rewrite (term_bill_call_flush _ _ c _ (term_bill_of_with_bill _ _)
             (call_minutes_exact _ Hc))
    by (cbn [set_free_min free_min]; unfold TERM_MINS; lia).
  rewrite term_with_bill_twice.
  rewrite (term_bill_calls_after_flush post Hpost _ _
             (term_bill_of_with_bill _ _)) by reflexivity.
  rewrite term_with_bill_twice.
  cbn [set_free_min billed_min free_min min_rate fixed_cost plan_tag].
  do 3 f_equal. unfold TERM_MINS. f_equal. lia.
Qed.

Lemma term_month_billed_minutes_witness :
  exists (self' : TermContract.t) (b' : Bill),
    bill_calls [call_of 3600; call_of 3600; call_of 60]
      (snd (new_month 1 2025 Bill_init
              (TermContract.__init__ jan15_2025 jan15_2027)))
    = (Ok tt, self')
    /\ bill_of self' = Some b'
    /\ billed_min b' = 121
    /\ free_min b' = 200.
Proof.
  pose (self1 := snd (new_month 1 2025 Bill_init
                        (TermContract.__init__ jan15_2025 jan15_2027))).
  pose (b1 := mkBill 0 0 TERM_MINS_COST (0 + TERM_DEPOSIT + TERM_MONTHLY_FEE)
                     "TERM").
  assert (Hrun :
            bill_calls ([call_of 3600] ++ call_of 3600 :: [call_of 60]) self1
            = (Ok tt,
               with_bill
                 (Some (mkBill (0 + (60 + 60 - 100) + (1 + 100 * 1)) 200
                               TERM_MINS_COST
                               (0 + TERM_DEPOSIT + TERM_MONTHLY_FEE) "TERM"))
                 self1)).
  { apply (term_month_billed_minutes self1 b1 [call_of 3600] [call_of 60]
             (call_of 3600) eq_refl eq_refl).
    - exact_calls.
    - cbn. lia. }
  eexists. eexists. split; [exact Hrun|].
  split; [reflexivity|]. split; reflexivity.
Defined.

End TermMonth.

(** ** Opening a month of a term contract *)

Section TermNewMonth.

Lemma fits_c_int_small (z : Z) :
  -10000 <= z <= 10000 -> datetime.fits_c_int z = true.
Proof.
  intros Hz. unfold datetime.fits_c_int.
  change (2 ^ 31) with 2147483648.
  apply andb_true_iff. split; [apply Z.leb_le|apply Z.ltb_lt]; lia.
Qed.

Lemma date_new_valid (month year : Z) :
  valid_month month year ->
  datetime.new year month 1 = Ok (datetime.mkDate year month 1).
Proof.
  intros [[Hm1 Hm2] [Hy1 Hy2]]. unfold datetime.new.
  rewrite !fits_c_int_small by lia. cbn [andb negb].
  assert (Hd : (1 <=? datetime.days_in_month year month) = true).
  { unfold datetime.days_in_month.
    destruct (month =? 2); [destruct (datetime.is_leap year)|];
      [reflexivity|reflexivity|].
    destruct ((month =? 4) || (month =? 6) || (month =? 9) || (month =? 11));
      reflexivity. }
  rewrite Hd.
  apply Z.leb_le in Hm1, Hm2, Hy1, Hy2.
  rewrite Hm1, Hm2, Hy1, Hy2. reflexivity.
Qed.

Lemma date_new_invalid (month year : Z) :
  ~ valid_month month year ->
  datetime.new year month 1
  = Raise (if datetime.fits_c_int year && datetime.fits_c_int month
           then ValueError else OverflowError).
Proof.
  intros Hinv. unfold datetime.new.
  rewrite (fits_c_int_small 1) by lia. rewrite andb_true_r.
  destruct (datetime.fits_c_int year && datetime.fits_c_int month);
    cbn [negb]; [|reflexivity].
  destruct ((1 <=? year) && (year <=? 9999) && (1 <=? month)
            && (month <=? 12)) eqn:E; [|reflexivity].
  exfalso. apply Hinv.
  rewrite !andb_true_iff, !Z.leb_le in E. unfold valid_month. lia.
Qed.

(** The bill of a term contract once [new_month] has configured it. *)
Lemma term_new_month_bill (self : TermContract.t) (s : datetime.date)
      (month year : Z) (bill : Bill) :
  start_of self = Some s ->
  exists b' : Bill,
    new_month month year bill self
    = (match datetime.new year month 1 with
       | Ok d => (Ok tt, TermContract.set_current d
                           (with_bill (Some b') self))
       | Raise e => (Raise e, with_bill (Some b') self)
       end)
    /\ free_min b' = 0
    /\ billed_min b' = billed_min bill
    /\ min_rate b' = (1 # 10)%Q
    /\ fixed_cost b'
       == fixed_cost bill
          + (if (datetime.month s =? month) && (datetime.year s =? year)
             then 320 else 20).
Proof.
  destruct self as [[st ob] e c]. run_methods. intros ->.
  destruct ((datetime.month s =? month) && (datetime.year s =? year));
    (eexists; split;
     [destruct (datetime.new year month 1); reflexivity|];
     split; [reflexivity|]; split; [reflexivity|];
     split; [reflexivity|]);
    cbn [add_fixed_cost set_rates set_free_min fixed_cost];
    unfold TERM_DEPOSIT, TERM_MONTHLY_FEE; ring.
Qed.

(** X3.  A month of a term contract whose calls stay below 100 minutes costs
    the fixed charges alone: on a fresh bill, 20.00, or 320.00 when the month
    and year are those of the start date (the deposit); no minute is billed
    and the free-minute counter is the sum of the calls' minutes. *)
Theorem term_month_below_capacity_cost
        (self : TermContract.t) (s : datetime.date) (month year : Z)
        (calls : list Call) :
  start_of self = Some s ->
  valid_month month year ->
  Forall exact_duration calls ->
  minutes_per_call calls < 100 ->
  exists (self' : TermContract.t) (b : Bill),
    (new_month month year Bill_init >> bill_calls calls) self = (Ok tt, self')
    /\ bill_of self' = Some b
    /\ free_min b = minutes_per_call calls
    /\ billed_min b = 0
    /\ get_cost b
       == (if (datetime.month s =? month) && (datetime.year s =? year)
           then 320 else 20).
Proof.
  intros Hs Hvalid Hcalls Hsum.
  destruct (term_new_month_bill self s month year Bill_init Hs)
    as (b1 & Hnm & Hfree & Hbilled & Hrate & Hfixed).
  rewrite (date_new_valid _ _ Hvalid) in Hnm.
  unfold mbind. rewrite Hnm.
  assert (Hb1 : bill_of (TermContract.set_current
                           (datetime.mkDate year month 1)
                           (with_bill (Some b1) self)) = Some b1)
    by reflexivity.
  rewrite (term_bill_calls_below_capacity calls Hcalls _ b1 Hb1)
    by (unfold TERM_MINS; lia).
  eexists. eexists. split; [reflexivity|].
  split; [reflexivity|].
  cbn [set_free_min free_min billed_min].
  split; [lia|]. split; [exact Hbilled|].
  unfold get_cost. cbn [set_free_min fixed_cost billed_min min_rate].
  rewrite Hbilled, Hfixed. cbn [Bill_init billed_min fixed_cost].
  destruct ((datetime.month s =? month) && (datetime.year s =? year)); ring.
Qed.

Lemma term_month_below_capacity_cost_witness :
  exists (self' : TermContract.t) (b : Bill),
    (new_month 1 2025 Bill_init
       >> bill_calls [call_of 1800; call_of 61])
      (TermContract.__init__ jan15_2025 jan15_2027)
    = (Ok tt, self')
    /\ bill_of self' = Some b
    /\ free_min b = 32
    /\ billed_min b = 0
    /\ get_cost b == 320.
Proof.
  apply (term_month_below_capacity_cost
           (TermContract.__init__ jan15_2025 jan15_2027) jan15_2025 1 2025
           [call_of 1800; call_of 61] eq_refl).
  - unfold valid_month. lia.
  - exact_calls.
  - cbn. lia.
Defined.

(** X4.  [new_month] with a month outside 1..12 or a year outside 1..9999
    raises at its last statement, where [datetime.date] is built:
    [ValueError], or [OverflowError] when the month or the year is no C
    [int].  By then the bill is installed, its counter reset and the month's
    fixed charges added, while the current-period marker, the end date and
    the start date keep their values. *)
Theorem term_new_month_invalid_date
        (self : TermContract.t) (s : datetime.date) (month year : Z)
        (bill : Bill) :
  start_of self = Some s ->
  ~ valid_month month year ->
  exists (self' : TermContract.t) (b' : Bill),
    new_month month year bill self
    = (Raise (if datetime.fits_c_int year && datetime.fits_c_int month
              then ValueError else OverflowError),
       self')
    /\ TermContract.current self' = TermContract.current self
    /\ TermContract.end_ self' = TermContract.end_ self
    /\ start_of self' = start_of self
    /\ bill_of self' = Some b'
    /\ free_min b' = 0
    /\ billed_min b' = billed_min bill
    /\ fixed_cost b'
       == fixed_cost bill
          + (if (datetime.month s =? month) && (datetime.year s =? year)
             then 320 else 20).
Proof.
  intros Hs Hinv.
  destruct (term_new_month_bill self s month year bill Hs)
    as (b1 & Hnm & Hfree & Hbilled & _ & Hfixed).
  rewrite (date_new_invalid _ _ Hinv) in Hnm.
  exists (with_bill (Some b1) self), b1. split; [exact Hnm|].
  split; [reflexivity|]. split; [reflexivity|].
  split; [reflexivity|]. split; [reflexivity|].
  split; [exact Hfree|]. split; assumption.
Qed.

Lemma term_new_month_invalid_date_witness :
  exists (self' : TermContract.t) (b' : Bill),
    new_month (2 ^ 31) 2025 Bill_init
      (TermContract.__init__ jan15_2025 jan15_2027)
    = (Raise OverflowError, self')
    /\ TermContract.current self' = jan15_2025
    /\ bill_of self' = Some b'
    /\ fixed_cost b' == 20.
Proof.
  destruct (term_new_month_invalid_date
              (TermContract.__init__ jan15_2025 jan15_2027) jan15_2025
              (2 ^ 31) 2025 Bill_init eq_refl)
    as (self' & b' & Hrun & Hcur & _ & _ & Hb & _ & _ & Hfixed).
  - unfold valid_month. change (2 ^ 31) with 2147483648. lia.
  - exists self', b'. split; [exact Hrun|]. split; [exact Hcur|].
    split; [exact Hb|]. rewrite Hfixed. reflexivity.
Defined.

End TermNewMonth.

(** ** Prepaid contracts over a month *)

Section PrepaidMonth.

Lemma py_gt_int (z k : Z) : Py.gt (Py.Int z) (Py.Int k) = (k <? z).
Proof.
  unfold Py.gt, Py.lt, Py.real, Py.fle, Qle_bool, inject_Z.
  cbn [Qnum Qden]. rewrite !Z.mul_1_r.
  destruct (Z.ltb_spec k z), (Z.leb_spec k z), (Z.leb_spec z k);
    cbn [andb negb]; try reflexivity; lia.
Qed.

Lemma prepaid_bill_calls_chargeable (calls : list Call) :
  Forall exact_duration calls ->
  forall (st : option datetime.date) (b : Bill) (bal : Py.number),
    chargeable bal ->
    exists bal' : Py.number,
      bill_calls calls (PrepaidContract.mk (Contract.mk st (Some b)) bal)
      = (Ok tt,
         PrepaidContract.mk
           (Contract.mk st
              (Some (add_billed_minutes b (minutes_per_call calls))))
           bal')
      /\ (calls = [] -> bal' = bal)
      /\ (calls <> [] -> exists x : Py.float, bal' = Py.Flt x).
Proof.
  induction 1 as [|c cs Hc Hcs IH]; intros st b bal Hbal.
  - exists bal. change (minutes_per_call []) with 0.
    rewrite add_billed_minutes_0.
    split; [reflexivity|]. split; [reflexivity|congruence].
  - change (minutes_per_call (c :: cs))
      with (ceil60 (duration c) + minutes_per_call cs).
    pose proof (ceil60_nonneg _ (proj1 Hc)) as Hm0.
    pose proof (ceil60_spec (duration c)) as Hspec.
    destruct (prepaid_charge_succeeds bal (ceil60 (duration c)) Hbal)
      as (x & Hcharge).
    { unfold exact_duration, MAX_EXACT_SECONDS in Hc. lia. }
    destruct (IH st (add_billed_minutes b (ceil60 (duration c))) (Py.Flt x) I)
      as (bal' & Hrun & Hnil & Hcons).
    exists bal'. rewrite bill_calls_cons.
    rewrite (prepaid_bill_call_step
               (PrepaidContract.mk (Contract.mk st (Some b)) bal) b c _ _
               eq_refl (call_minutes_exact _ Hc) Hcharge).
    split; [rewrite <- add_billed_minutes_twice; exact Hrun|].
    split; [discriminate|]. intros _.
    destruct cs as [|c' cs'].
    + exists x. apply Hnil. reflexivity.
    + apply Hcons. discriminate.
Qed.

(** X5.  A month of a prepaid contract whose balance is still an [int], of
    at most 52 bits, opened on a fresh bill: every call of at most [2^53]
    seconds is billed, the bill ends with the sum of the calls' minutes and
    a cost of the opening balance, plus 25 if it was above -10, plus 0.025
    per minute.  Without calls the balance stays an [int], 25 less if it
    was recharged; with calls it ends as a [float]. *)
Theorem prepaid_month_bill
        (self : PrepaidContract.t) (z : Z) (month year : Z)
        (calls : list Call) :
  PrepaidContract.balance self = Py.Int z ->
  Z.abs z <= 2 ^ 52 ->
  Forall exact_duration calls ->
  exists (self' : PrepaidContract.t) (b : Bill),
    (new_month month year Bill_init >> bill_calls calls) self = (Ok tt, self')
    /\ bill_of self' = Some b
    /\ start_of self' = start_of self
    /\ billed_min b = minutes_per_call calls
    /\ get_cost b
       == inject_Z z + (if -10 <? z then 25 else 0)
          + inject_Z (minutes_per_call calls) * (25 # 1000)
    /\ (calls = [] ->
        PrepaidContract.balance self'
        = Py.Int (if -10 <? z then z - 25 else z))
    /\ (calls <> [] ->
        exists x : Py.float, PrepaidContract.balance self' = Py.Flt x).
Proof.
  intros Hbal Hz Hcalls. unfold mbind.
  rewrite prepaid_new_month_run, Hbal, py_gt_int.
  change (2 ^ 52) with 4503599627370496 in Hz.
  assert (Hch : chargeable (Py.Int (if -10 <? z then z - 25 else z))).
  { cbn [chargeable]. change (2 ^ 53) with 9007199254740992.
    destruct (-10 <? z); lia. }
  set (b1 := if -10 <? z
             then set_rates
                    (add_fixed_cost
                       (add_fixed_cost Bill_init (amount_of (Py.Int z))) 25)
                    "PREPAID" PREPAID_MINS_COST
             else set_rates (add_fixed_cost Bill_init (amount_of (Py.Int z)))
                            "PREPAID" PREPAID_MINS_COST).
  destruct (prepaid_bill_calls_chargeable calls Hcalls (start_of self) b1
              (Py.Int (if -10 <? z then z - 25 else z)) Hch)
    as (bal' & Hrun & Hnil & Hcons).
  assert (Hstate :
            (if -10 <? z
             then PrepaidContract.mk
                    (Contract.mk (start_of self)
                       (Some (set_rates
                                (add_fixed_cost
                                   (add_fixed_cost Bill_init
                                      (amount_of (Py.Int z))) 25)
                                "PREPAID" PREPAID_MINS_COST)))
                    (Py.Int (z - 25))
             else PrepaidContract.mk
                    (Contract.mk (start_of self)
                       (Some (set_rates
                                (add_fixed_cost Bill_init
                                   (amount_of (Py.Int z)))
                                "PREPAID" PREPAID_MINS_COST)))
                    (Py.Int z))
            = PrepaidContract.mk (Contract.mk (start_of self) (Some b1))
                (Py.Int (if -10 <? z then z - 25 else z))).
  { unfold b1. destruct (-10 <? z); reflexivity. }
  rewrite Hstate, Hrun.
  eexists. eexists. split; [reflexivity|].
  split; [reflexivity|]. split; [reflexivity|].
  cbn [PrepaidContract.balance].
  split; [|split; [|split; assumption]].
  - unfold b1. destruct (-10 <? z); cbn; lia.
  - unfold get_cost, b1, PREPAID_MINS_COST.
    destruct (-10 <? z);
      cbn [add_billed_minutes add_fixed_cost set_rates Bill_init amount_of
           billed_min fixed_cost min_rate];
      rewrite Z.add_0_l; ring.
Qed.

Lemma prepaid_month_bill_witness :
  exists (self' : PrepaidContract.t) (b : Bill),
    (new_month 1 2025 Bill_init >> bill_calls [call_of 3600; call_of 61])
      (PrepaidContract.__init__ jan15_2025 5)
    = (Ok tt, self')
    /\ bill_of self' = Some b
    /\ billed_min b = 62
    /\ get_cost b == -5 + 25 + inject_Z 62 * (25 # 1000).
Proof.
  destruct (prepaid_month_bill
              (PrepaidContract.__init__ jan15_2025 5) (-5) 1 2025
              [call_of 3600; call_of 61] eq_refl)
    as (self' & b & Hrun & Hb & _ & Hmin & Hcost & _).
  - cbn. lia.
  - exact_calls.
  - exists self', b. split; [exact Hrun|]. split; [exact Hb|].
    split; [exact Hmin|]. exact Hcost.
Defined.

(** X6.  On a prepaid contract without a bill, [bill_call] first computes
    [balance + minutes * 0.025] in Python's arithmetic.  If that raises
    [OverflowError] (an [int] balance too large for a float) the contract is
    left as it was; otherwise the sum becomes the balance and only then
    [AttributeError] is raised: the call is charged although no bill records
    it.  A balance that is a float, or an [int] of at most 53 bits, is always
    charged. *)
Theorem prepaid_bill_call_without_bill
        (self : PrepaidContract.t) (call : Call) :
  bill_of self = None ->
  exact_duration call ->
  match prepaid_charge (PrepaidContract.balance self)
          (ceil60 (duration call)) with
  | Ok balance' =>
      exists self' : PrepaidContract.t,
        bill_call call self = (Raise AttributeError, self')
        /\ PrepaidContract.balance self' = balance'
        /\ bill_of self' = None
        /\ start_of self' = start_of self
  | Raise e =>
      bill_call call self = (Raise e, self)
      /\ ~ chargeable (PrepaidContract.balance self)
  end.
Proof.
  intros Hb Hc.
  pose proof (call_minutes_exact call Hc) as Hm.
  destruct (prepaid_charge (PrepaidContract.balance self)
              (ceil60 (duration call))) as [balance'|e] eqn:Echarge.
  - destruct self as [[st ob] bal]. unfold prepaid_charge, bind in Echarge.
    cbn [PrepaidContract.balance] in Echarge.
    revert Hb. run_methods. intros ->. rewrite Hm.
    destruct (Py.mul (Py.Int (ceil60 (duration call)))
                (Py.literal PREPAID_MINS_COST)) as [charge|e];
      [|discriminate].
    rewrite Echarge. eexists. split; [reflexivity|].
    split; [reflexivity|]. split; reflexivity.
  - split; [exact (prepaid_bill_call_raises _ _ _ _ Hm Echarge)|].
    intros Hch.
    pose proof (ceil60_nonneg _ (proj1 Hc)) as Hm0.
    pose proof (ceil60_spec (duration call)) as Hspec.
    destruct (prepaid_charge_succeeds _ (ceil60 (duration call)) Hch)
      as (x & Hok).
    + unfold exact_duration, MAX_EXACT_SECONDS in Hc. lia.
    + congruence.
Qed.

Lemma prepaid_bill_call_without_bill_witness :
  exists self' : PrepaidContract.t,
    bill_call (call_of 61) (PrepaidContract.__init__ jan15_2025 100)
    = (Raise AttributeError, self')
    /\ PrepaidContract.balance self'
       = Py.Flt (Py.Finite (-7033355980557517 # 70368744177664))
    /\ bill_of self' = None.
Proof.
  pose proof (prepaid_bill_call_without_bill
                (PrepaidContract.__init__ jan15_2025 100) (call_of 61)
                eq_refl) as H.
  assert (Hc : exact_duration (call_of 61))
    by (unfold exact_duration, MAX_EXACT_SECONDS; cbn; lia).
  specialize (H Hc).
  assert (Echarge :
            prepaid_charge
              (PrepaidContract.balance
                 (PrepaidContract.__init__ jan15_2025 100))
              (ceil60 (duration (call_of 61)))
            = Ok (Py.Flt (Py.Finite (-7033355980557517 # 70368744177664))))
    by (vm_compute; reflexivity).
  rewrite Echarge in H.
  destruct H as (self' & Hrun & Hbal & Hnone & _).
  exists self'. split; [exact Hrun|]. split; [exact Hbal|exact Hnone].
Defined.

End PrepaidMonth.

(** ** Closing a month-to-month contract *)

Section MonthToMonthCancel.

(** X7.  Cancelling a month-to-month contract at the end of a month opened
    on a fresh bill returns the cost of that month, 50.00 plus 0.05 per
    billed minute; the start date is cleared and the bill stays with the
    contract. *)
Theorem mtm_cancel_after_month
        (self : MTMContract.t) (month year : Z) (calls : list Call) :
  Forall exact_duration calls ->
  exists (self' : MTMContract.t) (amount : Q) (b : Bill),
    (new_month month year Bill_init >> bill_calls calls >> cancel_contract)
      self
    = (Ok amount, self')
    /\ amount == 50 + inject_Z (minutes_per_call calls) * (5 # 100)
    /\ start_of self' = None
    /\ bill_of self' = Some b
    /\ billed_min b = minutes_per_call calls.
Proof.
  intros Hcalls. unfold mbind.
  rewrite mtm_new_month_step.
  rewrite (mtm_bill_calls_exact calls Hcalls _ _ (mtm_bill_of_with_bill _ _)).
  rewrite mtm_with_bill_twice.
  destruct self as [[st ob]]. run_methods.
  eexists. eexists. eexists. split; [reflexivity|].
  split; [|split; [reflexivity|split; [reflexivity|]]].
  - unfold get_cost.
    cbn [add_billed_minutes add_fixed_cost set_rates Bill_init
         billed_min fixed_cost min_rate].
    rewrite Z.add_0_l. unfold MTM_MONTHLY_FEE, MTM_MINS_COST. ring.
  - cbn [add_billed_minutes add_fixed_cost set_rates Bill_init billed_min].
    lia.
Qed.

Lemma mtm_cancel_after_month_witness :
  exists (self' : MTMContract.t) (amount : Q),
    (new_month 1 2025 Bill_init
       >> bill_calls [call_of 61; call_of 30] >> cancel_contract)
      (MTMContract.__init__ jan15_2025)
    = (Ok amount, self')
    /\ amount == 50 + inject_Z 3 * (5 # 100)
    /\ start_of self' = None.
Proof.
  destruct (mtm_cancel_after_month (MTMContract.__init__ jan15_2025) 1 2025
              [call_of 61; call_of 30])
    as (self' & amount & b & Hrun & Hamount & Hstart & _).
  - exact_calls.
  - exists self', amount. split; [exact Hrun|].
    split; [exact Hamount|exact Hstart].
Defined.

(** X8.  [cancel_contract] on a month-to-month contract without a bill
    raises [AttributeError] after it has cleared the start date: the
    contract is left with neither a start date nor a bill. *)
Theorem mtm_cancel_without_bill (self : MTMContract.t) :
  bill_of self = None ->
  exists self' : MTMContract.t,
    cancel_contract self = (Raise AttributeError, self')
    /\ start_of self' = None
    /\ bill_of self' = None.
Proof.
  destruct self as [[st ob]]. run_methods. intros ->.
  eexists. split; [reflexivity|]. split; reflexivity.
Qed.

Lemma mtm_cancel_without_bill_witness :
  exists self' : MTMContract.t,
    cancel_contract (MTMContract.__init__ jan15_2025)
    = (Raise AttributeError, self')
    /\ start_of self' = None
    /\ bill_of self' = None.
Proof.
  exact (mtm_cancel_without_bill (MTMContract.__init__ jan15_2025) eq_refl).
Defined.

End MonthToMonthCancel.

(** ** Durations too large for a float *)

Section Overflow.

Lemma rne_div_ge_floor (n d : Z) : n / d <= Float.rne_div n d.
Proof.
  unfold Float.rne_div.
  destruct (2 * (n mod d) <? d); [lia|].
  destruct (d <? 2 * (n mod d)); [lia|].
  destruct (Z.even (n / d)); lia.
Qed.

Lemma of_int_overflow (d : Z) :
  2 ^ 1024 <= d -> Float.of_int d = Raise OverflowError.
Proof.
  intros Hd.
  assert (Hpos : 0 < 2 ^ 1024) by (apply Z.pow_pos_nonneg; lia).
  assert (Hd0 : 0 < d) by lia.
  pose proof (Z.log2_spec d Hd0) as [Hlo _].
  assert (HL : 1024 <= Z.log2 d).
  { rewrite <- (Z.log2_pow2 1024) by lia. apply Z.log2_le_mono. exact Hd. }
  unfold Float.of_int, Float.round. simpl Qnum. simpl Qden.
  destruct (d =? 0) eqn:E0; [apply Z.eqb_eq in E0; lia|].
  rewrite Z.abs_eq by lia. rewrite ilog2_frac_1 by assumption.
  set (e := Z.log2 d - 52) in *.
  rewrite (Z.max_l e (-1074)) by (unfold e; lia).
  rewrite (Z.max_l 0 (- e)), (Z.max_r 0 e) by (unfold e; lia).
  rewrite Z.pow_0_r, !Z.mul_1_r, Z.mul_1_l.
  assert (He : 0 < 2 ^ e) by (apply Z.pow_pos_nonneg; unfold e; lia).
  assert (Hsplit : 2 ^ Z.log2 d = 2 ^ 52 * 2 ^ e).
  { rewrite <- Z.pow_add_r by (unfold e; lia). f_equal. unfold e. lia. }
  pose proof (rne_div_ge_floor d (2 ^ e)) as Hm.
  assert (Hq : 2 ^ 52 <= d / 2 ^ e).
  { apply Z.div_le_lower_bound; [exact He|]. rewrite Z.mul_comm.
    rewrite <- Hsplit. exact Hlo. }
  set (m := Float.rne_div d (2 ^ e)) in *.
  assert (Hbig : 2 ^ 1024 <= m * 2 ^ e).
  { apply Z.le_trans with (2 ^ Z.log2 d).
    - apply Z.pow_le_mono_r; lia.
    - rewrite Hsplit. apply Z.mul_le_mono_nonneg_r; lia. }
  unfold Float.dyadic.
  destruct (0 <=? e) eqn:Ee; [|apply Z.leb_gt in Ee; unfold e in Ee; lia].
  set (v := m * 2 ^ e) in *.
  assert (Hle : Qle_bool (inject_Z (2 ^ 1024)) (Qabs (inject_Z v)) = true).
  { apply Qle_bool_iff. unfold Qle, Qabs, inject_Z. simpl Qnum. simpl Qden.
    rewrite Z.abs_eq by lia. lia. }
  rewrite Hle. reflexivity.
Qed.

(** X9.  A call of [2^1024] seconds or more cannot be billed: converting its
    duration to a float raises [OverflowError].  The term and prepaid
    methods raise it before touching anything, and so does the base method
    once it has found the bill; in each case the contract, the prepaid
    balance included, is left unchanged. *)
Theorem bill_call_duration_overflow (call : Call) :
  2 ^ 1024 <= duration call ->
  call_minutes call = Raise OverflowError
  /\ (forall self : TermContract.t,
         bill_call call self = (Raise OverflowError, self))
  /\ (forall self : PrepaidContract.t,
         bill_call call self = (Raise OverflowError, self))
  /\ (forall (self : MTMContract.t) (b : Bill),
         bill_of self = Some b ->
         bill_call call self = (Raise OverflowError, self)).
Proof.
  intros Hd.
  assert (Hm : call_minutes call = Raise OverflowError).
  { unfold call_minutes. rewrite (of_int_overflow _ Hd). reflexivity. }
  split; [exact Hm|]. split; [|split].
  - intros [[st ob] e c]. run_methods. rewrite Hm. reflexivity.
  - intros [[st ob] bal]. run_methods. rewrite Hm. reflexivity.
  - intros [[st ob]] b. run_methods. intros ->. rewrite Hm. reflexivity.
Qed.

Lemma bill_call_duration_overflow_witness :
  bill_call (call_of (2 ^ 1024)) (PrepaidContract.__init__ jan15_2025 100)
  = (Raise OverflowError, PrepaidContract.__init__ jan15_2025 100).
Proof.
  apply (proj1 (proj2 (proj2 (bill_call_duration_overflow
                                (call_of (2 ^ 1024)) (Z.le_refl _))))).
Defined.

End Overflow.
